(** * ABC/XYZ SKU classification engine ([scripts/classify_skus.py])

    A shallow embedding of the three spreadsheet readers, the SKU key
    lookups and the two classifiers, followed by the properties of the
    written specification that were checked against them.

    Conventions of the embedding:
    - Python [int]/[float] cell values are exact rationals ([Q]); the
      [float('inf')] sentinel is a separate constructor ([Inf]).  The
      program computes with binary floating point: its sums, products
      and quotients agree with the exact ones, wherever a comparison
      reads them, on whole numbers of bounded size ([plain_sheet],
      [plain_records]), and the properties that rest on the outcome of
      such a comparison are stated on those inputs.
    - Python [str] is [string], a character being a code point below 256;
      [strip] removes the white space of that range, the case and digit
      functions are those of the ASCII range.  The properties that depend
      on what these functions do to a cell are stated for ASCII text
      ([ascii_row], [ascii_sheet]).
    - [dict[str, dict]] and [dict[str, float]] used only through lookups
      are [gmap string _]; the SKU record set, whose iteration order
      decides the stable sort, is an insertion-ordered association list.
    - an uncaught [IndexError] is the result [None]. *)

From Stdlib Require Import Ascii String QArith Qround Lqa.
From stdpp Require Import gmap strings list fin_maps sorting.

Local Open Scope string_scope.
Local Open Scope Q_scope.

(** ** Python string primitives *)

Module PyStr.

Definition ascii_in (c : ascii) (set : list ascii) : bool :=
  bool_decide (c ∈ set).

(** Characters removed by [str.strip()] (those with [isspace()] true):
    among the code points below 256, the ASCII white space, U+0085 and
    U+00A0. *)
Definition is_space (c : ascii) : bool :=
  let n := nat_of_ascii c in
  ((9 <=? n) && (n <=? 13) || (28 <=? n) && (n <=? 32)
   || (n =? 133) || (n =? 160))%nat.

Fixpoint lstrip_by (p : ascii -> bool) (s : string) : string :=
  match s with
  | EmptyString => EmptyString
  | String c s' => if p c then lstrip_by p s' else s
  end.

(** [rstrip_by p s] drops the longest suffix of [s] all of whose
    characters satisfy [p]. *)
Fixpoint rstrip_by (p : ascii -> bool) (s : string) : string :=
  match s with
  | EmptyString => EmptyString
  | String c s' =>
      match rstrip_by p s' with
      | EmptyString => if p c then EmptyString else String c EmptyString
      | r => String c r
      end
  end.

(** [s.strip()] *)
Definition strip (s : string) : string :=
  rstrip_by is_space (lstrip_by is_space s).

(** [s.rstrip(chars)]: [chars] is a SET of characters, each trailing
    character that belongs to it is removed. *)
Definition rstrip (chars : string) (s : string) : string :=
  rstrip_by (fun c => ascii_in c (list_ascii_of_string chars)) s.

Definition lower_ascii (c : ascii) : ascii :=
  let n := nat_of_ascii c in
  if ((65 <=? n) && (n <=? 90))%nat then ascii_of_nat (n + 32) else c.

(** [s.lower()] *)
Fixpoint lower (s : string) : string :=
  match s with
  | EmptyString => EmptyString
  | String c s' => String (lower_ascii c) (lower s')
  end.

(** [s.startswith(p)] *)
Definition startswith (s p : string) : bool := String.prefix p s.

(** [sub in s] *)
Fixpoint contains (sub s : string) : bool :=
  String.prefix sub s ||
  match s with
  | EmptyString => false
  | String _ s' => contains sub s'
  end.

(** [s.replace(old, '')] for a non-empty [old]: every non-overlapping
    occurrence, scanning from the left, is removed.  [skip] counts the
    characters of the occurrence being removed that are still ahead. *)
Fixpoint remove_all_aux (old : string) (skip : nat) (s : string) : string :=
  match s with
  | EmptyString => EmptyString
  | String c s' =>
      match skip with
      | S k => remove_all_aux old k s'
      | O =>
          if String.prefix old s
          then remove_all_aux old (String.length old - 1) s'
          else String c (remove_all_aux old 0 s')
      end
  end.

Definition remove_all (old s : string) : string := remove_all_aux old 0 s.

End PyStr.

Example strip_ex : PyStr.strip "  ab c  " = "ab c".
Proof. reflexivity. Qed.

Example rstrip_GT_ex1 : PyStr.rstrip "GT" "1272762GT" = "1272762".
Proof. reflexivity. Qed.

Example rstrip_GT_ex2 : PyStr.rstrip "GT" "BOLTGT" = "BOL".
Proof. reflexivity. Qed.

Example lower_ex : PyStr.lower "ADJ-002" = "adj-002".
Proof. reflexivity. Qed.

Example contains_ex : PyStr.contains "adj" "x-adj-002" = true.
Proof. reflexivity. Qed.

Example remove_all_ex :
  PyStr.remove_all "Warehouse:" "Warehouse: Kent" = " Kent".
Proof. reflexivity. Qed.

(** ** Data model *)

(** A spreadsheet cell as the reader hands it over ([values_only=True]):
    [None], an [int]/[float], a [str] or a [datetime].  A number and a
    date carry, next to their value, the text Python's [str()] gives for
    them, since several columns are read through [str(cell or '')]. *)
Inductive cell :=
| CNone
| CNum (q : Q) (repr : string)
| CText (s : string)
| CDate (year month : Z) (repr : string).

Definition row := list cell.

(** [str(c or '')] *)
Definition text_of (c : cell) : string :=
  match c with
  | CNone => ""
  | CNum q r => if Qeq_bool q 0 then "" else r
  | CText s => s
  | CDate _ _ r => r
  end.

(** [isinstance(c, (int, float))] *)
Definition is_num (c : cell) : bool :=
  match c with CNum _ _ => true | _ => false end.

(** [row[i] if len(row) > i and isinstance(row[i], (int, float)) else d] *)
Definition num_or (r : row) (i : nat) (d : Q) : Q :=
  match r !! i with
  | Some (CNum q _) => q
  | _ => d
  end.

(** [int(q)]: truncation towards zero. *)
Definition py_int (q : Q) : Q := inject_Z (Z.quot (Qnum q) (Zpos (Qden q))).

Definition Qltb (a b : Q) : bool := negb (Qle_bool b a).

(** A float that may be the [float('inf')] sentinel. *)
Inductive ext := Fin (q : Q) | Inf.

Inductive abc := ClsA | ClsB | ClsC.
Inductive xyz := ClsX | ClsY | ClsZ.

#[global] Instance abc_eq_dec : EqDecision abc.
Proof. solve_decision. Defined.

#[global] Instance xyz_eq_dec : EqDecision xyz.
Proof. solve_decision. Defined.

(** [class SKUData]; the class strings are [None] for [''] (unset). *)
Record SKUData := mkSKU {
  sku_code : string;
  supplier : string;
  warehouse : string;
  avg_ship_wk : Q;
  wks_on_hand : Q;
  beginning_inv : Q;
  ending_inv : Q;
  received : Q;
  shipments : Q;
  unit_cost : Q;
  weight_lbs : Q;
  length_in : Q;
  width_in : Q;
  height_in : Q;
  dim_uom_units : Q;
  annual_value : Q;
  monthly_qty_out : gmap string Q;
  cv : option ext;
  abc_class : option abc;
  xyz_class : option xyz;
  xyz_estimated : bool
}.

(** [SKUData(sku_code)] *)
Definition new_sku (code : string) : SKUData :=
  mkSKU code "" "" 0 0 0 0 0 0 0 0 0 0 0 1 0 ∅ None None None false.

(** Attribute assignments [s.field = v]. *)
Definition set_supplier (v : string) (s : SKUData) : SKUData :=
  mkSKU (sku_code s) v (warehouse s) (avg_ship_wk s) (wks_on_hand s)
    (beginning_inv s) (ending_inv s) (received s) (shipments s)
    (unit_cost s) (weight_lbs s) (length_in s) (width_in s) (height_in s)
    (dim_uom_units s) (annual_value s) (monthly_qty_out s) (cv s)
    (abc_class s) (xyz_class s) (xyz_estimated s).

Definition set_warehouse (v : string) (s : SKUData) : SKUData :=
  mkSKU (sku_code s) (supplier s) v (avg_ship_wk s) (wks_on_hand s)
    (beginning_inv s) (ending_inv s) (received s) (shipments s)
    (unit_cost s) (weight_lbs s) (length_in s) (width_in s) (height_in s)
    (dim_uom_units s) (annual_value s) (monthly_qty_out s) (cv s)
    (abc_class s) (xyz_class s) (xyz_estimated s).

Definition set_avg_ship_wk (v : Q) (s : SKUData) : SKUData :=
  mkSKU (sku_code s) (supplier s) (warehouse s) v (wks_on_hand s)
    (beginning_inv s) (ending_inv s) (received s) (shipments s)
    (unit_cost s) (weight_lbs s) (length_in s) (width_in s) (height_in s)
    (dim_uom_units s) (annual_value s) (monthly_qty_out s) (cv s)
    (abc_class s) (xyz_class s) (xyz_estimated s).

Definition set_wks_on_hand (v : Q) (s : SKUData) : SKUData :=
  mkSKU (sku_code s) (supplier s) (warehouse s) (avg_ship_wk s) v
    (beginning_inv s) (ending_inv s) (received s) (shipments s)
    (unit_cost s) (weight_lbs s) (length_in s) (width_in s) (height_in s)
    (dim_uom_units s) (annual_value s) (monthly_qty_out s) (cv s)
    (abc_class s) (xyz_class s) (xyz_estimated s).

Definition set_beginning_inv (v : Q) (s : SKUData) : SKUData :=
  mkSKU (sku_code s) (supplier s) (warehouse s) (avg_ship_wk s)
    (wks_on_hand s) v (ending_inv s) (received s) (shipments s)
    (unit_cost s) (weight_lbs s) (length_in s) (width_in s) (height_in s)
    (dim_uom_units s) (annual_value s) (monthly_qty_out s) (cv s)
    (abc_class s) (xyz_class s) (xyz_estimated s).

Definition set_ending_inv (v : Q) (s : SKUData) : SKUData :=
  mkSKU (sku_code s) (supplier s) (warehouse s) (avg_ship_wk s)
    (wks_on_hand s) (beginning_inv s) v (received s) (shipments s)
    (unit_cost s) (weight_lbs s) (length_in s) (width_in s) (height_in s)
    (dim_uom_units s) (annual_value s) (monthly_qty_out s) (cv s)
    (abc_class s) (xyz_class s) (xyz_estimated s).

Definition set_received (v : Q) (s : SKUData) : SKUData :=
  mkSKU (sku_code s) (supplier s) (warehouse s) (avg_ship_wk s)
    (wks_on_hand s) (beginning_inv s) (ending_inv s) v (shipments s)
    (unit_cost s) (weight_lbs s) (length_in s) (width_in s) (height_in s)
    (dim_uom_units s) (annual_value s) (monthly_qty_out s) (cv s)
    (abc_class s) (xyz_class s) (xyz_estimated s).

Definition set_shipments (v : Q) (s : SKUData) : SKUData :=
  mkSKU (sku_code s) (supplier s) (warehouse s) (avg_ship_wk s)
    (wks_on_hand s) (beginning_inv s) (ending_inv s) (received s) v
    (unit_cost s) (weight_lbs s) (length_in s) (width_in s) (height_in s)
    (dim_uom_units s) (annual_value s) (monthly_qty_out s) (cv s)
    (abc_class s) (xyz_class s) (xyz_estimated s).

Definition set_unit_cost (v : Q) (s : SKUData) : SKUData :=
  mkSKU (sku_code s) (supplier s) (warehouse s) (avg_ship_wk s)
    (wks_on_hand s) (beginning_inv s) (ending_inv s) (received s)
    (shipments s) v (weight_lbs s) (length_in s) (width_in s)
    (height_in s) (dim_uom_units s) (annual_value s) (monthly_qty_out s)
    (cv s) (abc_class s) (xyz_class s) (xyz_estimated s).

Definition set_weight_lbs (v : Q) (s : SKUData) : SKUData :=
  mkSKU (sku_code s) (supplier s) (warehouse s) (avg_ship_wk s)
    (wks_on_hand s) (beginning_inv s) (ending_inv s) (received s)
    (shipments s) (unit_cost s) v (length_in s) (width_in s) (height_in s)
    (dim_uom_units s) (annual_value s) (monthly_qty_out s) (cv s)
    (abc_class s) (xyz_class s) (xyz_estimated s).

Definition set_length_in (v : Q) (s : SKUData) : SKUData :=
  mkSKU (sku_code s) (supplier s) (warehouse s) (avg_ship_wk s)
    (wks_on_hand s) (beginning_inv s) (ending_inv s) (received s)
    (shipments s) (unit_cost s) (weight_lbs s) v (width_in s)
    (height_in s) (dim_uom_units s) (annual_value s) (monthly_qty_out s)
    (cv s) (abc_class s) (xyz_class s) (xyz_estimated s).

Definition set_width_in (v : Q) (s : SKUData) : SKUData :=
  mkSKU (sku_code s) (supplier s) (warehouse s) (avg_ship_wk s)
    (wks_on_hand s) (beginning_inv s) (ending_inv s) (received s)
    (shipments s) (unit_cost s) (weight_lbs s) (length_in s) v
    (height_in s) (dim_uom_units s) (annual_value s) (monthly_qty_out s)
    (cv s) (abc_class s) (xyz_class s) (xyz_estimated s).

Definition set_height_in (v : Q) (s : SKUData) : SKUData :=
  mkSKU (sku_code s) (supplier s) (warehouse s) (avg_ship_wk s)
    (wks_on_hand s) (beginning_inv s) (ending_inv s) (received s)
    (shipments s) (unit_cost s) (weight_lbs s) (length_in s) (width_in s)
    v (dim_uom_units s) (annual_value s) (monthly_qty_out s) (cv s)
    (abc_class s) (xyz_class s) (xyz_estimated s).

Definition set_dim_uom_units (v : Q) (s : SKUData) : SKUData :=
  mkSKU (sku_code s) (supplier s) (warehouse s) (avg_ship_wk s)
    (wks_on_hand s) (beginning_inv s) (ending_inv s) (received s)
    (shipments s) (unit_cost s) (weight_lbs s) (length_in s) (width_in s)
    (height_in s) v (annual_value s) (monthly_qty_out s) (cv s)
    (abc_class s) (xyz_class s) (xyz_estimated s).

Definition set_annual_value (v : Q) (s : SKUData) : SKUData :=
  mkSKU (sku_code s) (supplier s) (warehouse s) (avg_ship_wk s)
    (wks_on_hand s) (beginning_inv s) (ending_inv s) (received s)
    (shipments s) (unit_cost s) (weight_lbs s) (length_in s) (width_in s)
    (height_in s) (dim_uom_units s) v (monthly_qty_out s) (cv s)
    (abc_class s) (xyz_class s) (xyz_estimated s).

Definition set_monthly_qty_out (v : gmap string Q) (s : SKUData) : SKUData :=
  mkSKU (sku_code s) (supplier s) (warehouse s) (avg_ship_wk s)
    (wks_on_hand s) (beginning_inv s) (ending_inv s) (received s)
    (shipments s) (unit_cost s) (weight_lbs s) (length_in s) (width_in s)
    (height_in s) (dim_uom_units s) (annual_value s) v (cv s)
    (abc_class s) (xyz_class s) (xyz_estimated s).

Definition set_cv (v : option ext) (s : SKUData) : SKUData :=
  mkSKU (sku_code s) (supplier s) (warehouse s) (avg_ship_wk s)
    (wks_on_hand s) (beginning_inv s) (ending_inv s) (received s)
    (shipments s) (unit_cost s) (weight_lbs s) (length_in s) (width_in s)
    (height_in s) (dim_uom_units s) (annual_value s) (monthly_qty_out s) v
    (abc_class s) (xyz_class s) (xyz_estimated s).

Definition set_abc_class (v : option abc) (s : SKUData) : SKUData :=
  mkSKU (sku_code s) (supplier s) (warehouse s) (avg_ship_wk s)
    (wks_on_hand s) (beginning_inv s) (ending_inv s) (received s)
    (shipments s) (unit_cost s) (weight_lbs s) (length_in s) (width_in s)
    (height_in s) (dim_uom_units s) (annual_value s) (monthly_qty_out s)
    (cv s) v (xyz_class s) (xyz_estimated s).

Definition set_xyz_class (v : option xyz) (s : SKUData) : SKUData :=
  mkSKU (sku_code s) (supplier s) (warehouse s) (avg_ship_wk s)
    (wks_on_hand s) (beginning_inv s) (ending_inv s) (received s)
    (shipments s) (unit_cost s) (weight_lbs s) (length_in s) (width_in s)
    (height_in s) (dim_uom_units s) (annual_value s) (monthly_qty_out s)
    (cv s) (abc_class s) v (xyz_estimated s).

Definition set_xyz_estimated (v : bool) (s : SKUData) : SKUData :=
  mkSKU (sku_code s) (supplier s) (warehouse s) (avg_ship_wk s)
    (wks_on_hand s) (beginning_inv s) (ending_inv s) (received s)
    (shipments s) (unit_cost s) (weight_lbs s) (length_in s) (width_in s)
    (height_in s) (dim_uom_units s) (annual_value s) (monthly_qty_out s)
    (cv s) (abc_class s) (xyz_class s) v.

(** ** The SKU record set: an insertion-ordered [dict[str, SKUData]] *)

Module ODict.
Section ODict.
Context {V : Type}.

(** [d.get(k)] *)
Fixpoint get (k : string) (d : list (string * V)) : option V :=
  match d with
  | [] => None
  | (k', v) :: d' => if String.eqb k k' then Some v else get k d'
  end.

(** [d[k] = v]: an existing key keeps its position, a new key goes
    last. *)
Fixpoint set (k : string) (v : V) (d : list (string * V))
  : list (string * V) :=
  match d with
  | [] => [(k, v)]
  | (k', v') :: d' =>
      if String.eqb k k' then (k', v) :: d' else (k', v') :: set k v d'
  end.

(** [d.values()] *)
Definition values (d : list (string * V)) : list V := map snd d.

Definition keys (d : list (string * V)) : list string := map fst d.
End ODict.
End ODict.

(** ** Supplier names *)

(** [SUPPLIER_MAP], in declaration order. *)
Definition SUPPLIER_MAP : list (string * string) :=
  [ ("alliance metal changzhou", "AMC");
    ("amc", "AMC");
    ("hx/ whi", "HX");
    ("hx/whi", "HX");
    ("zhongxing", "ZhongXing");
    ("zhong xing", "ZhongXing");
    ("tianjin", "TianJin");
    ("tianjin/whi", "TianJin");
    ("tianijn", "TianJin");
    ("winschem", "WINSCHEM");
    ("changzhou winschem", "WINSCHEM");
    ("changzhou nuode", "Nuode");
    ("nuode", "Nuode") ].

Fixpoint first_alias (tbl : list (string * string)) (lower : string)
  : option string :=
  match tbl with
  | [] => None
  | (key, code) :: tbl' =>
      if PyStr.contains key lower then Some code else first_alias tbl' lower
  end.

Definition resolve_supplier (raw_name : string) : string :=
  let lower := PyStr.strip (PyStr.lower raw_name) in
  match first_alias SUPPLIER_MAP lower with
  | Some code => code
  | None => PyStr.strip raw_name
  end.

(** ** Depletion sheet reader ([parse_depletion]) *)

Record DepletionState := mkDep {
  dep_skus : list (string * SKUData);
  current_warehouse : string;
  current_supplier : string
}.

Definition dep_init : DepletionState := mkDep [] "" "".

(** The branch [if sku_code in skus:] of the row loop: the counters and
    the weekly velocity are summed first, then the comparison reads the
    velocity that was just updated. *)
Definition merge_sighting (existing : SKUData)
    (avg_ship woh beg_inv received_ shipments_ ending : Q)
    (cur_wh : string) : SKUData :=
  let e1 := set_avg_ship_wk (avg_ship_wk existing + avg_ship) existing in
  let e2 := set_beginning_inv (beginning_inv e1 + beg_inv) e1 in
  let e3 := set_ending_inv (ending_inv e2 + ending) e2 in
  let e4 := set_received (received e3 + received_) e3 in
  let e5 := set_shipments (shipments e4 + shipments_) e4 in
  if Qltb (avg_ship_wk e5 - avg_ship) avg_ship
  then set_warehouse cur_wh (set_wks_on_hand woh e5)
  else e5.

(** The [else] branch: a first sighting. *)
Definition first_sighting (code : string)
    (avg_ship woh beg_inv received_ shipments_ ending : Q)
    (cur_wh cur_sup : string) : SKUData :=
  set_shipments (py_int shipments_)
    (set_received (py_int received_)
      (set_ending_inv (py_int ending)
        (set_beginning_inv (py_int beg_inv)
          (set_wks_on_hand woh
            (set_avg_ship_wk avg_ship
              (set_warehouse cur_wh
                (set_supplier cur_sup (new_sku code)))))))).

(** The part of the loop body after the header tests: a SKU data row. *)
Definition dep_data_row (cell0 : string) (r : row) (st : DepletionState)
  : DepletionState :=
  let sku_code := cell0 in
  let avg_ship := num_or r 16 0 in
  let woh := num_or r 17 0 in
  let beg_inv := num_or r 2 0 in
  let received_ := num_or r 5 0 in
  let shipments_ := num_or r 9 0 in
  let ending := num_or r 13 0 in
  match ODict.get sku_code (dep_skus st) with
  | Some existing =>
      mkDep (ODict.set sku_code
               (merge_sighting existing avg_ship woh beg_inv received_
                  shipments_ ending (current_warehouse st))
               (dep_skus st))
            (current_warehouse st) (current_supplier st)
  | None =>
      mkDep (ODict.set sku_code
               (first_sighting sku_code avg_ship woh beg_inv received_
                  shipments_ ending (current_warehouse st)
                  (current_supplier st))
               (dep_skus st))
            (current_warehouse st) (current_supplier st)
  end.

(** [any(isinstance(row[i], (int, float)) for i in range(2, 18)
         if i < len(row))] *)
Definition any_num_2_18 (r : row) : bool :=
  existsb (fun i => match r !! i with Some c => is_num c | None => false end)
          (seq 2 16).

(** One iteration of [for row in ws.iter_rows(...)].  [None] is the
    [IndexError] of the unguarded reads [row[0]], [row[2]], [row[3]]. *)
Definition dep_step (st : DepletionState) (r : row)
  : option DepletionState :=
  match r !! 0%nat with
  | None => None
  | Some c0 =>
      let cell0 := PyStr.strip (text_of c0) in
      if PyStr.startswith cell0 "Warehouse:" then
        Some (mkDep (dep_skus st)
                (PyStr.strip (PyStr.remove_all "Warehouse:" cell0))
                (current_supplier st))
      else if String.eqb cell0 "" || String.eqb cell0 "SKU"
              || PyStr.startswith cell0 "Total"
              || PyStr.startswith cell0 "Grand"
              || PyStr.startswith cell0 "Item Activity" then
        Some st
      else
        match r !! 2%nat with
        | None => None
        | Some CNone =>
            match r !! 3%nat with
            | None => None
            | Some c3 =>
                let col3 := text_of c3 in
                if PyStr.contains "Item Activity From" col3
                   || negb (any_num_2_18 r)
                then Some (mkDep (dep_skus st) (current_warehouse st)
                             (resolve_supplier cell0))
                else Some (dep_data_row cell0 r st)
            end
        | Some _ => Some (dep_data_row cell0 r st)
        end
  end.

Fixpoint dep_loop (st : DepletionState) (rows : list row)
  : option DepletionState :=
  match rows with
  | [] => Some st
  | r :: rows' =>
      match dep_step st r with
      | None => None
      | Some st' => dep_loop st' rows'
      end
  end.

(** [parse_depletion]: the rows of the active sheet to the record set. *)
Definition parse_depletion (rows : list row)
  : option (list (string * SKUData)) :=
  match dep_loop dep_init rows with
  | Some st => Some (dep_skus st)
  | None => None
  end.

(** ** Item master reader ([parse_view_item]) *)

(** One entry of the [items] dictionary. *)
Record Item := mkItem {
  cost : Q;
  description : string;
  it_weight_lbs : Q;
  it_length_in : Q;
  it_width_in : Q;
  it_height_in : Q;
  it_dim_uom_units : Q;
  it_supplier : string
}.

(** The five assignments of the dimensions row. *)
Definition set_dimensions (length width height weight dim_units : Q)
    (it : Item) : Item :=
  mkItem (cost it) (description it) weight length width height dim_units
         (it_supplier it).

(** [items] is shared by all sheets; the other three are reset at the
    start of every sheet. *)
Record ViewState := mkView {
  items : gmap string Item;
  current_sku : option string;
  supplier_name : string;
  next_is_dimensions : bool
}.

Definition skip_prefixes : list string :=
  ["SKU"; "Dimensional"; "Storage"; "Track By"; "View Item"].

(** [cell0.startswith(skip_prefixes)] *)
Definition starts_with_any (s : string) (ps : list string) : bool :=
  existsb (PyStr.startswith s) ps.

(** [dim_units = row[3] if len(row) > 3 and isinstance(...) else None],
    tested for truth: a number other than zero. *)
Definition dim_units_of (r : row) : option Q :=
  match r !! 3%nat with
  | Some (CNum q _) => if Qeq_bool q 0 then None else Some q
  | _ => None
  end.

(** [str(row[2] or '').strip() if len(row) > 2 else ''] *)
Definition dim_uom_of (r : row) : string :=
  match r !! 2%nat with
  | Some c => PyStr.strip (text_of c)
  | None => ""
  end.

(** The body of [if next_is_dimensions:] up to, not including, the reset
    of the flag. *)
Definition view_dimensions_row (k : string) (it : Item) (r : row)
    (its : gmap string Item) : gmap string Item :=
  let dim_uom := dim_uom_of r in
  match dim_units_of r with
  | Some dim_units =>
      if negb (String.eqb dim_uom "") then
        let length := num_or r 6 0 in
        let width := num_or r 7 0 in
        let height := num_or r 8 0 in
        let weight := num_or r 10 0 in
        if Qltb 0 length && Qeq_bool (it_length_in it) 0
        then <[k := set_dimensions length width height weight dim_units it]>
               its
        else its
      else its
  | None => its
  end.

(** One iteration of the row loop of a sheet; [None] is the [IndexError]
    of [row[0]] on an empty row. *)
Definition view_step (st : ViewState) (r : row) : option ViewState :=
  match r !! 0%nat with
  | None => None
  | Some c0 =>
      let cell0 := PyStr.strip (text_of c0) in
      if starts_with_any cell0 skip_prefixes then
        Some (mkView (items st) (current_sku st) (supplier_name st)
                (String.eqb cell0 "Dimensional UOM"))
      else if negb (String.eqb cell0 "") then
        match r !! 9%nat with
        | Some (CNum cost_val _) =>
            if Qltb 0 cost_val then
              match r !! 1%nat with
              | None => None
              | Some c1 =>
                  Some (mkView
                          (<[cell0 :=
                               mkItem cost_val (text_of c1) 0 0 0 0 1
                                 (resolve_supplier (supplier_name st))]>
                             (items st))
                          (Some cell0) (supplier_name st) false)
              end
            else Some (mkView (items st) (current_sku st) cell0 false)
        | _ => Some (mkView (items st) (current_sku st) cell0 false)
        end
      else
        match current_sku st with
        | Some k =>
            match (if String.eqb k "" then None else items st !! k) with
            | Some it =>
                if next_is_dimensions st then
                  Some (mkView (view_dimensions_row k it r (items st))
                          (current_sku st) (supplier_name st) false)
                else Some st
            | None => Some st
            end
        | None => Some st
        end
  end.

Fixpoint view_rows (st : ViewState) (rows : list row) : option ViewState :=
  match rows with
  | [] => Some st
  | r :: rows' =>
      match view_step st r with
      | None => None
      | Some st' => view_rows st' rows'
      end
  end.

(** [for sheet_name in wb.sheetnames:] *)
Fixpoint view_sheets (its : gmap string Item) (sheets : list (list row))
  : option (gmap string Item) :=
  match sheets with
  | [] => Some its
  | rows :: sheets' =>
      match view_rows (mkView its None "" false) rows with
      | None => None
      | Some st => view_sheets (items st) sheets'
      end
  end.

Definition parse_view_item (sheets : list (list row))
  : option (gmap string Item) :=
  view_sheets ∅ sheets.

(** ** Activity transaction aggregator ([parse_activity_reports]) *)

Module Dates.

Definition digit_val (c : ascii) : option Z :=
  let n := nat_of_ascii c in
  if ((48 <=? n) && (n <=? 57))%nat then Some (Z.of_nat (n - 48)) else None.

(** The value of a non-empty string of decimal digits. *)
Fixpoint digits_val (acc : Z) (s : string) : option Z :=
  match s with
  | EmptyString => Some acc
  | String c s' =>
      match digit_val c with
      | Some d => digits_val (10 * acc + d)%Z s'
      | None => None
      end
  end.

Definition number (s : string) : option Z :=
  match s with
  | EmptyString => None
  | _ => digits_val 0 s
  end.

(** [s.split('/')] *)
Fixpoint split_slash (s : string) : list string :=
  match s with
  | EmptyString => [EmptyString]
  | String c s' =>
      if Ascii.eqb c "/" then EmptyString :: split_slash s'
      else match split_slash s' with
           | p :: ps => String c p :: ps
           | [] => [String c EmptyString]
           end
  end.

(** [%m]: one or two digits, 1 to 12. *)
Definition month_field (s : string) : option Z :=
  match number s with
  | Some m =>
      if (String.length s <=? 2)%nat && (1 <=? m)%Z && (m <=? 12)%Z
      then Some m else None
  | None => None
  end.

(** [%d]: one or two digits, 1 to 31, or a space and one digit 1 to 9. *)
Definition day_field (s : string) : option Z :=
  match s with
  | String " " (String c EmptyString) =>
      match digit_val c with
      | Some d => if (1 <=? d)%Z then Some d else None
      | None => None
      end
  | _ =>
      match number s with
      | Some d =>
          if (String.length s <=? 2)%nat && (1 <=? d)%Z && (d <=? 31)%Z
          then Some d else None
      | None => None
      end
  end.

(** [%Y]: exactly four digits. *)
Definition year_field (s : string) : option Z :=
  if (String.length s =? 4)%nat then number s else None.

Definition is_leap (y : Z) : bool :=
  ((y mod 4 =? 0) && (negb (y mod 100 =? 0) || (y mod 400 =? 0)))%Z.

Definition days_in_month (y m : Z) : Z :=
  if (m =? 2)%Z then (if is_leap y then 29 else 28)%Z
  else if ((m =? 4) || (m =? 6) || (m =? 9) || (m =? 11))%Z then 30%Z
  else 31%Z.

(** [datetime.strptime(s, "%m/%d/%Y")], reduced to the year and month
    the caller reads; [None] is [ValueError]. *)
Definition strptime_mdY (s : string) : option (Z * Z) :=
  match split_slash s with
  | [ms; ds; ys] =>
      match month_field ms, day_field ds, year_field ys with
      | Some m, Some d, Some y =>
          if ((1 <=? y) && (d <=? days_in_month y m))%Z
          then Some (y, m) else None
      | _, _, _ => None
      end
  | _ => None
  end.

Definition digit_char (d : Z) : ascii :=
  ascii_of_nat (48 + Z.to_nat d).

(** Decimal digits of a non-negative number, most significant first;
    [fuel] bounds the number of digits. *)
Fixpoint decimal_aux (fuel : nat) (n : Z) (acc : string) : string :=
  match fuel with
  | O => acc
  | S fuel' =>
      let acc' := String (digit_char (n mod 10)) acc in
      if (n <? 10)%Z then acc' else decimal_aux fuel' (n / 10)%Z acc'
  end.

Definition decimal (n : Z) : string :=
  decimal_aux (S (Z.to_nat (Z.log2 n))) n EmptyString.

(** [f"{dt.year}-{dt.month:02d}"] for the year and month of a date
    (both positive). *)
Definition month_key (y m : Z) : string :=
  decimal y ++ "-" ++ (if (m <? 10)%Z then "0" else "") ++ decimal m.

End Dates.

Example strptime_ex1 : Dates.strptime_mdY "3/7/2024" = Some (2024, 3)%Z.
Proof. reflexivity. Qed.

Example strptime_ex2 : Dates.strptime_mdY "02/30/2024" = None.
Proof. reflexivity. Qed.

Example strptime_ex3 : Dates.strptime_mdY "12/31/2023x" = None.
Proof. reflexivity. Qed.

Example month_key_ex : Dates.month_key 2024 3 = "2024-03".
Proof. reflexivity. Qed.

Example month_key_ex2 : Dates.month_key 2023 12 = "2023-12".
Proof. reflexivity. Qed.

(** [monthly_out] is shared by all files; the other counters shown are
    those the loop updates. *)
Record ActivityState := mkAct {
  monthly_out : gmap string (gmap string Q);
  total_transactions : nat;
  filtered_adjustments : nat;
  filtered_moves : nat;
  act_current_sku : option string;
  file_tx : nat;
  file_filtered : nat
}.

(** [monthly_out[sku][month_key] += qty_out] on the nested
    [defaultdict(float)]. *)
Definition add_qty (k mk : string) (qty : Q)
    (mo : gmap string (gmap string Q)) : gmap string (gmap string Q) :=
  let h := default ∅ (mo !! k) in
  <[k := <[mk := default 0 (h !! mk) + qty]> h]> mo.

(** [str(row[1] or '').strip() if len(row) > 1 else ''] *)
Definition col_text (r : row) (i : nat) : string :=
  match r !! i with
  | Some c => PyStr.strip (text_of c)
  | None => ""
  end.

(** The header test at the top of the loop body. *)
Definition is_sku_header (r : row) : bool :=
  let col1 := col_text r 1 in
  negb (String.eqb col1 "")
  && negb (bool_decide (col1 ∈ [""; "Totals:"; "SKU"]))
  && match r !! 4%nat with
     | Some (CNum col4 _) => Qltb 0 col4
     | _ => false
     end.

(** The [try] block: a native date, or text in the fixed format. *)
Definition row_date (r : row) : option (Z * Z) :=
  match r !! 5%nat with
  | Some (CDate y m _) => Some (y, m)
  | _ => Dates.strptime_mdY (col_text r 5)
  end.

(** [str(row[7] or '').strip().lower() if len(row) > 7 else ''] *)
Definition ref_of (r : row) : string :=
  match r !! 7%nat with
  | Some c => PyStr.lower (PyStr.strip (text_of c))
  | None => ""
  end.

Definition is_adjustment (ref : string) : bool :=
  PyStr.contains "adjust" ref || PyStr.contains "adj" ref.

Definition is_move (ref : string) : bool := PyStr.startswith ref "mv".

(** [not date_str or date_str in ('Activity Date', 'Beginning Balance',
    'Ending Balance', '')] *)
Definition non_date_text (date_str : string) : bool :=
  String.eqb date_str ""
  || bool_decide (date_str ∈ ["Activity Date"; "Beginning Balance";
                              "Ending Balance"; ""]).

Definition act_step (st : ActivityState) (r : row) : ActivityState :=
  if is_sku_header r then
    mkAct (monthly_out st) (total_transactions st)
      (filtered_adjustments st) (filtered_moves st)
      (Some (col_text r 1)) (file_tx st) (file_filtered st)
  else
    match act_current_sku st with
    | None => st
    | Some sku =>
        if String.eqb sku "" then st else
        let date_str := col_text r 5 in
        if non_date_text date_str then st
        else
          match row_date r with
          | None => st
          | Some (y, m) =>
              let ref := ref_of r in
              if is_adjustment ref then
                mkAct (monthly_out st) (total_transactions st)
                  (S (filtered_adjustments st)) (filtered_moves st)
                  (act_current_sku st) (file_tx st) (S (file_filtered st))
              else if is_move ref then
                mkAct (monthly_out st) (total_transactions st)
                  (filtered_adjustments st) (S (filtered_moves st))
                  (act_current_sku st) (file_tx st) (S (file_filtered st))
              else
                let qty_out := num_or r 10 0 in
                if Qltb 0 qty_out then
                  mkAct (add_qty sku (Dates.month_key y m) qty_out
                           (monthly_out st))
                    (S (total_transactions st))
                    (filtered_adjustments st) (filtered_moves st)
                    (act_current_sku st) (S (file_tx st)) (file_filtered st)
                else st
          end
    end.

(** One workbook: [current_sku], [file_tx] and [file_filtered] start
    afresh, the histogram and the totals carry over. *)
Definition act_file (st : ActivityState) (rows : list row) : ActivityState :=
  foldl act_step
    (mkAct (monthly_out st) (total_transactions st)
       (filtered_adjustments st) (filtered_moves st) None 0%nat 0%nat)
    rows.

Definition act_init : ActivityState := mkAct ∅ 0 0 0 None 0 0.

(** [parse_activity_reports], on the files that exist. *)
Definition parse_activity_reports (files : list (list row))
  : gmap string (gmap string Q) :=
  monthly_out (foldl act_file act_init files).

(** ** SKU key lookups *)

(** The chain [if code in m: ... elif code.rstrip('GT') in m: ...
    elif code + 'GT' in m: ...] of [compute_abc] and
    [merge_master_data]; [None] when no branch is taken. *)
Definition lookup_variants {V : Type} (m : gmap string V)
    (sku_code : string) : option V :=
  match m !! sku_code with
  | Some v => Some v
  | None =>
      match m !! PyStr.rstrip "GT" sku_code with
      | Some v => Some v
      | None => m !! (sku_code ++ "GT")
      end
  end.

(** The three [monthly_data.get(..., {})] of [compute_xyz]: an empty
    histogram counts as a miss. *)
Definition resolve_monthly (monthly_data : gmap string (gmap string Q))
    (sku_code : string) : gmap string Q :=
  let m1 := default ∅ (monthly_data !! sku_code) in
  let m2 := if (size m1 =? 0)%nat
            then default ∅ (monthly_data !! PyStr.rstrip "GT" sku_code)
            else m1 in
  if (size m2 =? 0)%nat
  then default ∅ (monthly_data !! (sku_code ++ "GT"))
  else m2.

(** ** Master-data merge ([merge_master_data]) *)

Definition merge_one (view_items : gmap string Item) (sku_code : string)
    (sku : SKUData) : SKUData :=
  match lookup_variants view_items sku_code with
  | Some item =>
      let s := set_dim_uom_units (it_dim_uom_units item)
                (set_height_in (it_height_in item)
                  (set_width_in (it_width_in item)
                    (set_length_in (it_length_in item)
                      (set_weight_lbs (it_weight_lbs item)
                        (set_unit_cost (cost item) sku))))) in
      if String.eqb (supplier s) "" then set_supplier (it_supplier item) s
      else s
  | None => sku
  end.

Definition merge_master_data (skus : list (string * SKUData))
    (view_items : gmap string Item) : list (string * SKUData) :=
  map (fun '(k, s) => (k, merge_one view_items k s)) skus.

(** ** ABC classifier ([compute_abc]) *)

Definition ABC_A_THRESHOLD : Q := 80 # 100.
Definition ABC_B_THRESHOLD : Q := 96 # 100.

(** [sum(...)] *)
Definition Qsum (l : list Q) : Q := foldl Qplus 0 l.

(** [sorted(l, key=key, reverse=True)]: stable, descending. *)
Fixpoint insert_desc {T : Type} (key : T -> Q) (x : T) (l : list T)
  : list T :=
  match l with
  | [] => [x]
  | y :: l' =>
      if Qltb (key x) (key y) then y :: insert_desc key x l'
      else x :: y :: l'
  end.

Definition py_sorted_desc {T : Type} (key : T -> Q) (l : list T) : list T :=
  foldr (insert_desc key) [] l.

(** The first loop: unit cost and annual value of every record. *)
Definition abc_value_one (costs : gmap string Item) (sku_code : string)
    (sku : SKUData) : SKUData :=
  let cost_ := match lookup_variants costs sku_code with
               | Some item => cost item
               | None => 0
               end in
  set_annual_value (avg_ship_wk sku * 52 * cost_) (set_unit_cost cost_ sku).

Definition abc_values (skus : list (string * SKUData))
    (costs : gmap string Item) : list (string * SKUData) :=
  map (fun '(k, s) => (k, abc_value_one costs k s)) skus.

(** The records are objects shared between the dictionary and the
    sorted list: a reference is the position of the record in the
    dictionary, and [sorted_skus] is a list of references. *)
Definition value_at (store : list (string * SKUData)) (i : nat) : Q :=
  match store !! i with
  | Some (_, s) => annual_value s
  | None => 0
  end.

Definition class_at (store : list (string * SKUData)) (i : nat)
  : option abc :=
  match store !! i with
  | Some (_, s) => abc_class s
  | None => None
  end.

(** [sku.abc_class = c] through the reference [i]. *)
Definition assign_class (c : abc) (i : nat)
    (store : list (string * SKUData)) : list (string * SKUData) :=
  alter (fun ks => (ks.1, set_abc_class (Some c) ks.2)) i store.

Definition sorted_skus (store : list (string * SKUData)) : list nat :=
  py_sorted_desc (value_at store) (seq 0 (length store)).

Definition total_value (store : list (string * SKUData)) : Q :=
  Qsum (map (value_at store) (sorted_skus store)).

Record AbcLoop := mkAbc {
  abc_store : list (string * SKUData);
  cumulative : Q;
  a_count : Z;
  b_count : Z;
  c_count : Z
}.

(** The class the walk gives to a cumulative share. *)
Definition class_of_pct (pct : Q) : abc :=
  if Qle_bool pct ABC_A_THRESHOLD then ClsA
  else if Qle_bool pct ABC_B_THRESHOLD then ClsB
  else ClsC.

(** One iteration of [for sku in sorted_skus:]. *)
Definition abc_step (total : Q) (st : AbcLoop) (i : nat) : AbcLoop :=
  let cum := cumulative st + value_at (abc_store st) i in
  let pct := cum / total in
  if Qle_bool pct ABC_A_THRESHOLD then
    mkAbc (assign_class ClsA i (abc_store st)) cum
      (a_count st + 1) (b_count st) (c_count st)
  else if Qle_bool pct ABC_B_THRESHOLD then
    mkAbc (assign_class ClsB i (abc_store st)) cum
      (a_count st) (b_count st + 1) (c_count st)
  else
    mkAbc (assign_class ClsC i (abc_store st)) cum
      (a_count st) (b_count st) (c_count st + 1).

(** [# Edge case: ensure at least 1 A] *)
Definition abc_force_a (refs : list nat) (st : AbcLoop) : AbcLoop :=
  match refs with
  | r0 :: _ =>
      if (a_count st =? 0)%Z then
        let store' := assign_class ClsA r0 (abc_store st) in
        if bool_decide (class_at store' r0 = Some ClsB)
        then mkAbc store' (cumulative st) 1 (b_count st - 1) (c_count st)
        else mkAbc store' (cumulative st) 1 (b_count st) (c_count st - 1)
      else st
  | [] => st
  end.

(** The state in which [compute_abc] leaves its locals. *)
Definition abc_run (skus : list (string * SKUData))
    (costs : gmap string Item) : AbcLoop :=
  let store := abc_values skus costs in
  let refs := sorted_skus store in
  let total := total_value store in
  if Qle_bool total 0 then
    mkAbc (foldl (fun st i => assign_class ClsC i st) store refs) 0 0 0 0
  else
    abc_force_a refs (foldl (abc_step total) (mkAbc store 0 0 0 0) refs).

(** [compute_abc]: the record set after the call. *)
Definition compute_abc (skus : list (string * SKUData))
    (costs : gmap string Item) : list (string * SKUData) :=
  abc_store (abc_run skus costs).

(** ** XYZ classifier ([compute_xyz]) *)

Definition XYZ_X_THRESHOLD : Q := 5 # 10.
Definition XYZ_Y_THRESHOLD : Q := 1.
Definition MIN_MONTHS_FOR_XYZ : nat := 6.

(** [cv < t], where [cv] may be the infinity sentinel. *)
Definition ext_ltb (c : ext) (t : Q) : bool :=
  match c with
  | Fin q => Qltb q t
  | Inf => false
  end.

(** The [# Classify] block for a computed [cv]. *)
Definition xyz_of_cv (c : ext) : xyz :=
  if ext_ltb c XYZ_X_THRESHOLD then ClsX
  else if ext_ltb c XYZ_Y_THRESHOLD then ClsY
  else ClsZ.

(** The [else] branch: the estimate by weekly velocity. *)
Definition estimated_cv (avg : Q) : ext :=
  if Qle_bool 10 avg then Fin (6 # 10)
  else if Qle_bool 1 avg then Fin (8 # 10)
  else if Qltb 0 avg then Fin (12 # 10)
  else Inf.

(** [statistics.mean] *)
Definition mean (values : list Q) : Q :=
  Qsum values / inject_Z (Z.of_nat (length values)).

(** The sample variance under the square root of [statistics.stdev]. *)
Definition variance (values : list Q) : Q :=
  let m := mean values in
  Qsum (map (fun x => (x - m) * (x - m)) values)
  / (inject_Z (Z.of_nat (length values)) - 1).

Section XYZ.

(** The floating-point square root of [statistics.stdev] is not a
    rational function: it is a parameter of the classifier. *)
Variable sqrtQ : Q -> Q.

Definition stdev (values : list Q) : Q := sqrtQ (variance values).

(** The measured branch ([len(monthly) >= MIN_MONTHS_FOR_XYZ]). *)
Definition measured_cv (monthly : gmap string Q) : ext :=
  let values := (map_to_list monthly).*2 in
  let mean_val := mean values in
  if Qltb 0 mean_val then
    let std_val := if (1 <? length values)%nat then stdev values else 0 in
    Fin (std_val / mean_val)
  else Inf.

(** The body of [for sku_code, sku in skus.items():]. *)
Definition xyz_one (monthly_data : gmap string (gmap string Q))
    (sku_code : string) (sku : SKUData) : SKUData :=
  let monthly := resolve_monthly monthly_data sku_code in
  let s1 :=
    if (MIN_MONTHS_FOR_XYZ <=? size monthly)%nat then
      set_monthly_qty_out monthly (set_cv (Some (measured_cv monthly)) sku)
    else
      set_xyz_estimated true
        (set_cv (Some (estimated_cv (avg_ship_wk sku))) sku) in
  match cv s1 with
  | Some c => set_xyz_class (Some (xyz_of_cv c)) s1
  | None => s1
  end.

(** [compute_xyz]: the record set after the call; [None] is the
    [ZeroDivisionError] of the summary percentages on an empty record
    set. *)
Definition compute_xyz (skus : list (string * SKUData))
    (monthly_data : gmap string (gmap string Q))
  : option (list (string * SKUData)) :=
  match skus with
  | [] => None
  | _ => Some (map (fun '(k, s) => (k, xyz_one monthly_data k s)) skus)
  end.

(** ** The pipeline of [main], up to the classified record set *)
Definition classify (depletion : list row) (view_item : list (list row))
    (activity : list (list row)) : option (list (string * SKUData)) :=
  match parse_depletion depletion with
  | None => None
  | Some skus =>
      match parse_view_item view_item with
      | None => None
      | Some view_items =>
          let monthly_data := parse_activity_reports activity in
          let skus1 := merge_master_data skus view_items in
          let skus2 := compute_abc skus1 view_items in
          compute_xyz skus2 monthly_data
      end
  end.

End XYZ.

(** A rational approximation of the square root from below, to six
    decimal places, used to run the classifier on examples. *)
Definition sqrt_approx (q : Q) : Q :=
  Z.sqrt (Qnum q * Zpos (Qden q) * 10 ^ 12) # (Qden q * 10 ^ 6).

(** ** Specification-side definitions and example inputs *)

(** A histogram of five months, and a record shipping 15 a week. *)
Definition five_months : gmap string Q :=
  list_to_map [("2024-01", 100); ("2024-02", 110); ("2024-03", 95);
               ("2024-04", 105); ("2024-05", 90)].

Definition sku_velocity (code : string) (v : Q) : SKUData :=
  set_avg_ship_wk v (new_sku code).

(** The lookup of the written specification: the second attempt removes
    the two-character suffix [GT] when the code ends with it, and
    nothing else. *)
Fixpoint strip_suffix_GT (s : string) : string :=
  match s with
  | String "G" (String "T" EmptyString) => EmptyString
  | String c s' => String c (strip_suffix_GT s')
  | EmptyString => EmptyString
  end.

Definition lookup_variants_spec {V : Type} (m : gmap string V)
    (sku_code : string) : option V :=
  match m !! sku_code with
  | Some v => Some v
  | None =>
      match m !! strip_suffix_GT sku_code with
      | Some v => Some v
      | None => m !! (sku_code ++ "GT")
      end
  end.

(** Example sheets are built from blank rows of [None] cells. *)
Definition blank_row (n : nat) : row := replicate n CNone.

Definition with_cell (i : nat) (c : cell) (r : row) : row := <[i := c]> r.

(** A depletion data row: code, beginning inventory 1, weekly shipments
    and weeks on hand. *)
Definition depletion_row (code : string) (avg woh : Q) : row :=
  with_cell 0 (CText code)
    (with_cell 2 (CNum 1 "1")
       (with_cell 16 (CNum avg "") (with_cell 17 (CNum woh "") (blank_row 18)))).

Definition sheet_3_then_7 : list row :=
  [ [CText "Warehouse: Kent"]; depletion_row "S1" 3 4;
    [CText "Warehouse: Moses"]; depletion_row "S1" 7 9 ].


(** An item master SKU row (code, description, cost in column 9) and a
    dimensions row (unit of measure, unit count, length, width, height). *)
Definition item_row (code : string) (cost_val : Q) : row :=
  with_cell 0 (CText code)
    (with_cell 1 (CText "part") (with_cell 9 (CNum cost_val "") (blank_row 11))).

Definition dims_row (l w h : Q) : row :=
  with_cell 2 (CText "Each")
    (with_cell 3 (CNum 1 "1")
       (with_cell 6 (CNum l "")
          (with_cell 7 (CNum w "") (with_cell 8 (CNum h "") (blank_row 11))))).

Definition fresh_item (cost_val : Q) : Item :=
  mkItem cost_val "part" 0 0 0 0 1 "".


Definition sheet_flat_dimensions : list row :=
  [ [CText "TianJin/WHI - Kent"]; item_row "S1" 5;
    [CText "Dimensional UOM"]; dims_row 5 0 0 ].

(** An activity sheet: a SKU header row and transaction rows (date in
    column 5, reference in column 7, quantity out in column 10). *)
Definition sku_header_row (code : string) : row :=
  with_cell 1 (CText code) (with_cell 4 (CNum 1 "1") (blank_row 11)).

Definition tx_row (date : cell) (ref : string) (qty_out : Q) : row :=
  with_cell 5 date
    (with_cell 7 (CText ref) (with_cell 10 (CNum qty_out "") (blank_row 11))).

Definition sheet_filtered : list row :=
  [ sku_header_row "S1";
    tx_row (CText "1/5/2024") "ADJ-002" 5;
    tx_row (CText "1/6/2024") "MV1002" 6;
    tx_row (CDate 2024 1 "2024-01-07 00:00:00") "SO-4471" 12 ].

(** A record with its class forgotten: what the class assignments of
    [compute_abc] leave untouched. *)
Definition erase_class (ks : string * SKUData) : string * SKUData :=
  (ks.1, set_abc_class None ks.2).


(** The walk of the written specification: the classes given, in order,
    to a list of values by their running share of [total], starting
    from the running sum [cum]. *)
Fixpoint walk_classes (total cum : Q) (vals : list Q) : list abc :=
  match vals with
  | [] => []
  | v :: vs =>
      class_of_pct ((cum + v) / total) :: walk_classes total (cum + v) vs
  end.

Fixpoint count_A (l : list abc) : nat :=
  match l with
  | [] => 0
  | ClsA :: l' => S (count_A l')
  | _ :: l' => count_A l'
  end.




(** The classes of the sorted positions after the edge case: the walk's
    classes, with the first replaced by [A] when the walk gave no [A]. *)
Definition final_classes (total : Q) (vals : list Q) : list abc :=
  let w := walk_classes total 0 vals in
  if (count_A w =? 0)%nat
  then match w with [] => [] | _ :: t => ClsA :: t end
  else w.

Definition example_costs : gmap string Item :=
  {[ "S1" := fresh_item 5; "S2" := fresh_item 1 ]}.

(** Annual values 520, 5200 and 0 (no cost on file for ["S3"]). *)
Definition example_skus : list (string * SKUData) :=
  [ ("S2", sku_velocity "S2" 10); ("S1", sku_velocity "S1" 20);
    ("S3", sku_velocity "S3" 7) ].



(** Six months of shipments for one SKU. *)
Definition sheet_six_months : list row :=
  [ sku_header_row "S1";
    tx_row (CText "1/15/2024") "SO-1" 100;
    tx_row (CText "2/15/2024") "SO-2" 110;
    tx_row (CText "3/15/2024") "SO-3" 95;
    tx_row (CText "4/15/2024") "SO-4" 105;
    tx_row (CText "5/15/2024") "SO-5" 90;
    tx_row (CText "6/15/2024") "SO-6" 120 ].



(** A record as the depletion reader leaves it: named after its key and
    not yet costed or classified. *)
Definition unclassified (k : string) (s : SKUData) : Prop :=
  sku_code s = k /\ k <> "" /\ unit_cost s = 0 /\ annual_value s = 0
  /\ cv s = None /\ abc_class s = None /\ xyz_class s = None
  /\ xyz_estimated s = false /\ monthly_qty_out s = ∅.

(** The dimensions of an item as a SKU row creates it. *)
Definition default_dimensions (it : Item) : Prop :=
  it_length_in it = 0 /\ it_width_in it = 0 /\ it_height_in it = 0
  /\ it_weight_lbs it = 0 /\ it_dim_uom_units it = 1.

(** No histogram is empty, and no histogram is kept under the empty
    code. *)
Definition histograms_inhabited (mo : gmap string (gmap string Q)) : Prop :=
  forall k h, mo !! k = Some h -> k <> "" /\ size h <> 0%nat.







(** Reading a month key back: the digits before and after the dash. *)
Fixpoint before_dash (s : string) : string :=
  match s with
  | EmptyString => EmptyString
  | String c s' =>
      if Ascii.eqb c "-" then EmptyString else String c (before_dash s')
  end.

Fixpoint after_dash (s : string) : string :=
  match s with
  | EmptyString => EmptyString
  | String c s' => if Ascii.eqb c "-" then s' else after_dash s'
  end.

Definition read_month_key (s : string) : option (Z * Z) :=
  match Dates.number (before_dash s), Dates.number (after_dash s) with
  | Some y, Some m => Some (y, m)
  | _, _ => None
  end.







(** Six months of the same quantity for one SKU. *)
Definition constant_demand : gmap string (gmap string Q) :=
  {[ "S1" := list_to_map [("2024-01", 40); ("2024-02", 40); ("2024-03", 40);
                          ("2024-04", 40); ("2024-05", 40); ("2024-06", 40)] ]}.

(** ** Input domains

    The inputs on which the text functions and the arithmetic of the
    embedding are those of the program: cells of ASCII text, and whole
    numbers small enough for every sum and product to be exact in
    binary floating point and for no quotient to round across a
    threshold. *)















(** * Properties *)

(** ** Comparisons on rationals *)

Lemma Qltb_lt (a b : Q) : Qltb a b = true <-> a < b.
Proof.
  unfold Qltb. rewrite negb_true_iff. split.
  - intros H. apply Qnot_le_lt. intros Hle.
    apply Qle_bool_iff in Hle. congruence.
  - intros H. destruct (Qle_bool b a) eqn:E; [|reflexivity].
    apply Qle_bool_iff in E. exfalso. apply (Qlt_not_le _ _ H E).
Qed.

Lemma Qltb_ge (a b : Q) : Qltb a b = false <-> b <= a.
Proof.
  unfold Qltb. rewrite negb_false_iff. apply Qle_bool_iff.
Qed.

Lemma Qle_bool_false (a b : Q) : Qle_bool a b = false <-> b < a.
Proof.
  rewrite <- Qltb_lt. unfold Qltb. rewrite negb_true_iff. reflexivity.
Qed.

Lemma Qeq_bool_false (a b : Q) : Qeq_bool a b = false <-> ~ a == b.
Proof.
  split.
  - intros H Heq. apply Qeq_bool_iff in Heq. congruence.
  - intros H. destruct (Qeq_bool a b) eqn:E; [|reflexivity].
    apply Qeq_bool_iff in E. contradiction.
Qed.

(** ** XYZ: the estimate for short histories *)

Section XYZ_estimate.
Variable sqrtQ : Q -> Q.

Lemma xyz_one_estimated md k s :
  (size (resolve_monthly md k) < MIN_MONTHS_FOR_XYZ)%nat ->
  xyz_one sqrtQ md k s
  = set_xyz_class (Some (xyz_of_cv (estimated_cv (avg_ship_wk s))))
      (set_xyz_estimated true
         (set_cv (Some (estimated_cv (avg_ship_wk s))) s)).
Proof.
  intros H. unfold xyz_one.
  destruct (MIN_MONTHS_FOR_XYZ <=? size (resolve_monthly md k))%nat eqn:E.
  - apply Nat.leb_le in E. lia.
  - reflexivity.
Qed.

Lemma estimated_cv_high avg : 10 <= avg -> estimated_cv avg = Fin (6 # 10).
Proof.
  intros H. unfold estimated_cv.
  apply Qle_bool_iff in H. rewrite H. reflexivity.
Qed.

Lemma estimated_cv_mid avg :
  1 <= avg -> avg < 10 -> estimated_cv avg = Fin (8 # 10).
Proof.
  intros H1 H2. unfold estimated_cv.
  apply Qle_bool_false in H2. apply Qle_bool_iff in H1.
  rewrite H2, H1. reflexivity.
Qed.

Lemma estimated_cv_low avg :
  0 < avg -> avg < 1 -> estimated_cv avg = Fin (12 # 10).
Proof.
  intros H1 H2. unfold estimated_cv.
  assert (H3 : avg < 10) by lra.
  apply Qle_bool_false in H2, H3. apply Qltb_lt in H1.
  rewrite H3, H2, H1. reflexivity.
Qed.

Lemma estimated_cv_none avg : avg <= 0 -> estimated_cv avg = Inf.
Proof.
  intros H. unfold estimated_cv.
  assert (H2 : avg < 1) by lra. assert (H3 : avg < 10) by lra.
  apply Qle_bool_false in H2, H3. apply Qltb_ge in H.
  rewrite H3, H2, H. reflexivity.
Qed.

(** C1 (amended): with fewer than six months in the resolved histogram
    the record is flagged estimated and its CV is the velocity tier:
    0.6 from 10 a week up, 0.8 from 1 up, 1.2 above 0, the infinity
    sentinel at 0.  The class follows from the common thresholds: 0.6
    and 0.8 are class Y (neither is below 0.5), 1.2 and infinity are
    class Z. *)
Theorem C1_xyz_estimate_tiers md k s :
  (size (resolve_monthly md k) < MIN_MONTHS_FOR_XYZ)%nat ->
  let s' := xyz_one sqrtQ md k s in
  let v := avg_ship_wk s in
  xyz_estimated s' = true
  /\ (10 <= v -> cv s' = Some (Fin (6 # 10)) /\ xyz_class s' = Some ClsY)
  /\ (1 <= v -> v < 10 ->
      cv s' = Some (Fin (8 # 10)) /\ xyz_class s' = Some ClsY)
  /\ (0 < v -> v < 1 ->
      cv s' = Some (Fin (12 # 10)) /\ xyz_class s' = Some ClsZ)
  /\ (v == 0 -> cv s' = Some Inf /\ xyz_class s' = Some ClsZ).
Proof.
  intros H s' v. subst s'. rewrite (xyz_one_estimated _ _ _ H).
  cbn [xyz_estimated cv xyz_class set_xyz_class set_xyz_estimated set_cv].
  fold v. split; [reflexivity|]. repeat split.
  - now rewrite estimated_cv_high.
  - now rewrite estimated_cv_high.
  - now rewrite estimated_cv_mid.
  - now rewrite estimated_cv_mid.
  - now rewrite estimated_cv_low.
  - now rewrite estimated_cv_low.
  - rewrite estimated_cv_none; [reflexivity | lra].
  - rewrite estimated_cv_none; [reflexivity | lra].
Qed.

End XYZ_estimate.

Lemma C1_xyz_estimate_tiers_witness :
  (size (resolve_monthly {[ "S1" := five_months ]} "S1")
   < MIN_MONTHS_FOR_XYZ)%nat
  /\ xyz_estimated
       (xyz_one sqrt_approx {[ "S1" := five_months ]} "S1"
          (sku_velocity "S1" 15)) = true
  /\ cv (xyz_one sqrt_approx {[ "S1" := five_months ]} "S1"
           (sku_velocity "S1" 15)) = Some (Fin (6 # 10))
  /\ xyz_class (xyz_one sqrt_approx {[ "S1" := five_months ]} "S1"
                  (sku_velocity "S1" 15)) = Some ClsY.
Proof.
  assert (H : (size (resolve_monthly {[ "S1" := five_months ]} "S1")
               < MIN_MONTHS_FOR_XYZ)%nat) by (vm_compute; lia).
  assert (Hv : 10 <= avg_ship_wk (sku_velocity "S1" 15))
    by (vm_compute; discriminate).
  pose proof (C1_xyz_estimate_tiers sqrt_approx _ "S1"
                (sku_velocity "S1" 15) H) as T.
  split; [exact H|]. split; [exact (proj1 T)|].
  exact (proj1 (proj2 T) Hv).
Defined.

(** C1 as written fails: five months of history and 15 a week give the
    estimate 0.6, and 0.6 is class Y, not X. *)
Lemma C1_counterexample :
  size (resolve_monthly {[ "S1" := five_months ]} "S1") = 5%nat
  /\ cv (xyz_one sqrt_approx {[ "S1" := five_months ]} "S1"
           (sku_velocity "S1" 15)) = Some (Fin (6 # 10))
  /\ xyz_class (xyz_one sqrt_approx {[ "S1" := five_months ]} "S1"
                  (sku_velocity "S1" 15)) = Some ClsY
  /\ xyz_class (xyz_one sqrt_approx {[ "S1" := five_months ]} "S1"
                  (sku_velocity "S1" 15)) <> Some ClsX.
Proof.
  repeat split; try (vm_compute; reflexivity).
  vm_compute. discriminate.
Qed.

(** ** Key lookups *)

Lemma lookup_variants_exact {V : Type} (m : gmap string V) code v :
  m !! code = Some v -> lookup_variants m code = Some v.
Proof. intros H. unfold lookup_variants. now rewrite H. Qed.

(** A key stored only with the suffix is found from the bare code. *)
Lemma lookup_variants_appended {V : Type} (m : gmap string V) code v :
  m !! code = None ->
  m !! PyStr.rstrip "GT" code = None ->
  m !! (code ++ "GT") = Some v ->
  lookup_variants m code = Some v.
Proof. intros H1 H2 H3. unfold lookup_variants. now rewrite H1, H2. Qed.

(** No form present: the lookup yields [None], it does not fail. *)
Lemma lookup_variants_absent {V : Type} (m : gmap string V) code :
  m !! code = None ->
  m !! PyStr.rstrip "GT" code = None ->
  m !! (code ++ "GT") = None ->
  lookup_variants m code = None.
Proof. intros H1 H2 H3. unfold lookup_variants. now rewrite H1, H2. Qed.

(** C2: the code's second attempt is [sku_code.rstrip('GT')], which
    removes every trailing [G] and [T]: queried as ["BOLTGT"], a mapping
    that holds the bare code ["BOLT"] is searched for ["BOL"] and the
    entry is missed, where stripping the two-character suffix finds it. *)
Theorem C2_rstrip_misses_bare_code (v : Item) :
  PyStr.rstrip "GT" "BOLTGT" = "BOL"
  /\ lookup_variants ({[ "BOLT" := v ]} : gmap string Item) "BOLTGT" = None
  /\ lookup_variants_spec ({[ "BOLT" := v ]} : gmap string Item) "BOLTGT"
     = Some v.
Proof.
  split; [reflexivity|]. split.
  - unfold lookup_variants.
    rewrite !lookup_singleton_ne by (vm_compute; discriminate).
    reflexivity.
  - unfold lookup_variants_spec.
    rewrite lookup_singleton_ne by (vm_compute; discriminate).
    change (strip_suffix_GT "BOLTGT") with "BOLT".
    now rewrite lookup_singleton_eq.
Qed.

(** ** Depletion reader: repeated sightings *)



(** ** Item master reader: the dimensions row *)




(** ** Activity aggregator: the transaction filter *)





(** ** ABC: the record store under the loop *)

Lemma Qsum_from (a : Q) (l : list Q) : foldl Qplus a l == a + Qsum l.
Proof.
  unfold Qsum. revert a. induction l as [|x l IH]; intros a; simpl.
  - lra.
  - rewrite (IH (a + x)), (IH (0 + x)). lra.
Qed.

Lemma Qsum_cons (x : Q) (l : list Q) : Qsum (x :: l) == x + Qsum l.
Proof. unfold Qsum at 1. simpl. rewrite Qsum_from. lra. Qed.

Lemma Qsum_app (l1 l2 : list Q) : Qsum (l1 ++ l2) == Qsum l1 + Qsum l2.
Proof.
  induction l1 as [|x l1 IH]; simpl.
  - unfold Qsum at 2. simpl. lra.
  - rewrite !Qsum_cons, IH. lra.
Qed.

Lemma erase_class_assign c ks :
  erase_class (ks.1, set_abc_class (Some c) ks.2) = erase_class ks.
Proof. reflexivity. Qed.

Lemma assign_class_erase c i store :
  map erase_class (assign_class c i store) = map erase_class store.
Proof.
  unfold assign_class. revert i.
  induction store as [|ks store IH]; intros i; [reflexivity|].
  destruct i as [|i]; simpl.
  - reflexivity.
  - f_equal. apply IH.
Qed.

Lemma assign_class_length c i store :
  length (assign_class c i store) = length store.
Proof. apply length_alter. Qed.

Lemma erase_eq_length (st1 st2 : list (string * SKUData)) :
  map erase_class st1 = map erase_class st2 -> length st1 = length st2.
Proof.
  intros H. rewrite <- (length_map erase_class st1), H. apply length_map.
Qed.

Lemma erase_eq_lookup (st1 st2 : list (string * SKUData)) i ks1 :
  map erase_class st1 = map erase_class st2 ->
  st1 !! i = Some ks1 ->
  exists ks2, st2 !! i = Some ks2 /\ erase_class ks1 = erase_class ks2.
Proof.
  intros H H1.
  assert (H2 : map erase_class st1 !! i = Some (erase_class ks1)).
  { change (map erase_class st1) with (erase_class <$> st1).
    rewrite list_lookup_fmap, H1. reflexivity. }
  rewrite H in H2. change (map erase_class st2) with (erase_class <$> st2) in H2.
  rewrite list_lookup_fmap in H2.
  destruct (st2 !! i) as [ks2|]; [|discriminate].
  exists ks2. split; [reflexivity|]. simpl in H2. congruence.
Qed.

Lemma erase_eq_value_at (st1 st2 : list (string * SKUData)) i :
  map erase_class st1 = map erase_class st2 ->
  value_at st1 i = value_at st2 i.
Proof.
  intros H. unfold value_at.
  destruct (st1 !! i) as [[k1 s1]|] eqn:E1.
  - destruct (erase_eq_lookup _ _ _ _ H E1) as ([k2 s2] & -> & He).
    unfold erase_class in He. simpl in He.
    change (annual_value s1) with (annual_value (set_abc_class None s1)).
    change (annual_value s2) with (annual_value (set_abc_class None s2)).
    congruence.
  - destruct (st2 !! i) as [[k2 s2]|] eqn:E2; [|reflexivity].
    symmetry in H.
    destruct (erase_eq_lookup _ _ _ _ H E2) as (? & ? & _). congruence.
Qed.

Lemma class_at_assign_eq c i store :
  (i < length store)%nat -> class_at (assign_class c i store) i = Some c.
Proof.
  intros Hi. unfold class_at, assign_class.
  rewrite list_lookup_alter_eq.
  destruct (lookup_lt_is_Some_2 store i Hi) as [[k s] ->]. reflexivity.
Qed.

Lemma class_at_assign_ne c i j store :
  i <> j -> class_at (assign_class c i store) j = class_at store j.
Proof.
  intros Hne. unfold class_at, assign_class.
  now rewrite list_lookup_alter_ne.
Qed.

Lemma lookup_assign_ne c i j store :
  i <> j -> assign_class c i store !! j = store !! j.
Proof. intros Hne. unfold assign_class. now rewrite list_lookup_alter_ne. Qed.

(** ** ABC: the stable descending sort *)

Lemma insert_desc_perm {T : Type} (key : T -> Q) (x : T) (l : list T) :
  insert_desc key x l ≡ₚ x :: l.
Proof.
  induction l as [|y l IH]; simpl; [reflexivity|].
  destruct (Qltb (key x) (key y)); [|reflexivity].
  rewrite IH. apply Permutation_swap.
Qed.

Lemma py_sorted_desc_perm {T : Type} (key : T -> Q) (l : list T) :
  py_sorted_desc key l ≡ₚ l.
Proof.
  unfold py_sorted_desc. induction l as [|x l IH]; simpl; [reflexivity|].
  rewrite insert_desc_perm. now rewrite IH.
Qed.



Lemma sorted_skus_perm store : sorted_skus store ≡ₚ seq 0 (length store).
Proof. apply py_sorted_desc_perm. Qed.

Lemma sorted_skus_NoDup store : NoDup (sorted_skus store).
Proof. rewrite sorted_skus_perm. apply NoDup_seq. Qed.

Lemma sorted_skus_lt store r :
  r ∈ sorted_skus store -> (r < length store)%nat.
Proof. rewrite sorted_skus_perm, elem_of_seq. lia. Qed.



(** ** ABC: the threshold walk *)


Lemma abc_step_store total st r :
  abc_store (abc_step total st r)
  = assign_class
      (class_of_pct ((cumulative st + value_at (abc_store st) r) / total))
      r (abc_store st).
Proof.
  unfold abc_step, class_of_pct.
  destruct (Qle_bool _ ABC_A_THRESHOLD); [reflexivity|].
  destruct (Qle_bool _ ABC_B_THRESHOLD); reflexivity.
Qed.

Lemma abc_step_cumulative total st r :
  cumulative (abc_step total st r)
  = cumulative st + value_at (abc_store st) r.
Proof.
  unfold abc_step.
  destruct (Qle_bool _ ABC_A_THRESHOLD); [reflexivity|].
  destruct (Qle_bool _ ABC_B_THRESHOLD); reflexivity.
Qed.

Lemma abc_step_a_count total st r :
  a_count (abc_step total st r)
  = (a_count st
     + Z.of_nat
         (count_A
            [class_of_pct
               ((cumulative st + value_at (abc_store st) r) / total)]))%Z.
Proof.
  unfold abc_step, class_of_pct.
  destruct (Qle_bool _ ABC_A_THRESHOLD); [reflexivity|].
  destruct (Qle_bool _ ABC_B_THRESHOLD); simpl; lia.
Qed.

(** The loop [for sku in sorted_skus:] over distinct references writes,
    at the reference in position [p], the class the walk gives to
    position [p], and nothing but classes. *)
Lemma abc_loop_spec total refs :
  forall st,
    NoDup refs ->
    (forall r, r ∈ refs -> (r < length (abc_store st))%nat) ->
    let st' := foldl (abc_step total) st refs in
    let classes := walk_classes total (cumulative st)
                     (map (value_at (abc_store st)) refs) in
    map erase_class (abc_store st') = map erase_class (abc_store st)
    /\ (forall j, j ∉ refs -> abc_store st' !! j = abc_store st !! j)
    /\ (forall p r, refs !! p = Some r ->
                    class_at (abc_store st') r = classes !! p)
    /\ a_count st' = (a_count st + Z.of_nat (count_A classes))%Z.
Proof.
  induction refs as [|r0 refs IH]; intros st Hnd Hlt; cbv zeta.
  - simpl. split; [reflexivity|]. split; [reflexivity|].
    split; [intros p r H; discriminate|lia].
  - apply NoDup_cons in Hnd as [Hr0 Hnd].
    simpl foldl.
    assert (Herase1 : map erase_class (abc_store (abc_step total st r0))
                      = map erase_class (abc_store st)).
    { rewrite abc_step_store. apply assign_class_erase. }
    assert (Hlt1 : forall r, r ∈ refs ->
                     (r < length (abc_store (abc_step total st r0)))%nat).
    { intros r Hr. rewrite (erase_eq_length _ _ Herase1).
      apply Hlt. now right. }
    destruct (IH (abc_step total st r0) Hnd Hlt1) as (He & Hout & Hcls & Hcnt).
    assert (Hvals : map (value_at (abc_store (abc_step total st r0))) refs
                    = map (value_at (abc_store st)) refs).
    { apply map_ext. intros i. now apply erase_eq_value_at. }
    rewrite Hvals, abc_step_cumulative in Hcls, Hcnt.
    split; [congruence|]. split; [|split].
    + intros j Hj. apply not_elem_of_cons in Hj as [Hj0 Hj].
      rewrite (Hout j Hj), abc_step_store.
      apply lookup_assign_ne. congruence.
    + intros p r Hp. destruct p as [|p]; simpl in Hp |- *.
      * injection Hp as <-. unfold class_at at 1.
        rewrite (Hout r0 Hr0). fold (class_at (abc_store (abc_step total st r0)) r0).
        rewrite abc_step_store. apply class_at_assign_eq.
        apply Hlt. now left.
      * now apply Hcls.
    + rewrite Hcnt, abc_step_a_count. simpl.
      destruct (class_of_pct _); simpl; lia.
Qed.

(** ** ABC: classes along the sorted list *)



Lemma Qdiv_le_iff (a t c : Q) : 0 < t -> (a / t <= c <-> a <= c * t).
Proof.
  intros Ht. split; intros H.
  - assert (E : a == a / t * t) by (field; lra).
    rewrite E. apply Qmult_le_compat_r; lra.
  - apply Qle_shift_div_r; assumption.
Qed.







Lemma walk_classes_length total cum vs :
  length (walk_classes total cum vs) = length vs.
Proof.
  revert cum. induction vs as [|v vs IH]; intros cum; simpl; [reflexivity|].
  now rewrite IH.
Qed.


(** ** ABC: the classified record set *)

Lemma abc_force_a_store refs st :
  abc_store (abc_force_a refs st)
  = match refs with
    | r0 :: _ =>
        if (a_count st =? 0)%Z then assign_class ClsA r0 (abc_store st)
        else abc_store st
    | [] => abc_store st
    end.
Proof.
  unfold abc_force_a. destruct refs as [|r0 refs]; [reflexivity|].
  destruct (a_count st =? 0)%Z; [|reflexivity].
  destruct (bool_decide _); reflexivity.
Qed.

Lemma compute_abc_erase skus costs :
  map erase_class (compute_abc skus costs)
  = map erase_class (abc_values skus costs).
Proof.
  unfold compute_abc, abc_run.
  set (store := abc_values skus costs).
  destruct (Qle_bool (total_value store) 0).
  - simpl. generalize (sorted_skus store). intros refs.
    generalize store. induction refs as [|r refs IH]; intros st; simpl.
    + reflexivity.
    + rewrite IH. apply assign_class_erase.
  - rewrite abc_force_a_store.
    destruct (abc_loop_spec (total_value store) (sorted_skus store)
                (mkAbc store 0 0 0 0) (sorted_skus_NoDup store)
                (sorted_skus_lt store)) as (He & _).
    simpl in He.
    destruct (sorted_skus store) as [|r0 refs] eqn:Er; [exact He|].
    destruct (a_count _ =? 0)%Z; [|exact He].
    rewrite assign_class_erase. exact He.
Qed.

Lemma compute_abc_length skus costs :
  length (compute_abc skus costs) = length skus.
Proof.
  rewrite (erase_eq_length _ _ (compute_abc_erase skus costs)).
  unfold abc_values. apply length_map.
Qed.

(** With a positive total, the record referenced at sorted position [p]
    ends with the class [final_classes] lists at [p]. *)
Lemma compute_abc_classes skus costs :
  let store := abc_values skus costs in
  0 < total_value store ->
  forall p r,
    sorted_skus store !! p = Some r ->
    class_at (compute_abc skus costs) r
    = final_classes (total_value store)
        (map (value_at store) (sorted_skus store)) !! p.
Proof.
  intros store Ht p r Hp.
  unfold compute_abc, abc_run. fold store.
  apply Qle_bool_false in Ht. rewrite Ht.
  rewrite abc_force_a_store.
  pose proof (sorted_skus_NoDup store) as Hnd.
  destruct (abc_loop_spec (total_value store) (sorted_skus store)
              (mkAbc store 0 0 0 0) Hnd (sorted_skus_lt store))
    as (He & _ & Hcls & Hcnt).
  simpl in He, Hcls, Hcnt. unfold final_classes.
  set (st' := foldl (abc_step (total_value store)) (mkAbc store 0 0 0 0)
                (sorted_skus store)) in *.
  set (w := walk_classes (total_value store) 0
              (map (value_at store) (sorted_skus store))) in *.
  assert (Hlen : (r < length (abc_store st'))%nat).
  { rewrite (erase_eq_length _ _ He). apply sorted_skus_lt.
    eapply list_elem_of_lookup_2, Hp. }
  assert (Hz : (a_count st' =? 0)%Z = (count_A w =? 0)%nat).
  { rewrite Hcnt. destruct (count_A w) as [|n]; [reflexivity|].
    transitivity false; [apply Z.eqb_neq; lia|reflexivity]. }
  rewrite Hz. specialize (Hcls p r Hp).
  destruct (sorted_skus store) as [|r0 refs] eqn:Er; [discriminate|].
  destruct (count_A w =? 0)%nat; [|exact Hcls].
  destruct p as [|p].
  - injection Hp as <-. rewrite class_at_assign_eq by exact Hlen.
    subst w. reflexivity.
  - apply NoDup_cons in Hnd as [Hr0 _].
    assert (r0 <> r).
    { intros ->. apply Hr0. eapply list_elem_of_lookup_2, Hp. }
    rewrite class_at_assign_ne by assumption.
    rewrite Hcls. subst w. reflexivity.
Qed.


Lemma final_classes_length total vals :
  length (final_classes total vals) = length vals.
Proof.
  unfold final_classes.
  pose proof (walk_classes_length total 0 vals) as H.
  destruct (count_A _ =? 0)%nat; [|exact H].
  destruct (walk_classes total 0 vals); simpl in *; exact H.
Qed.










(** ** ABC: the checked properties *)

Lemma assign_all_C refs :
  forall store i,
    (i < length store)%nat ->
    i ∈ refs \/ class_at store i = Some ClsC ->
    class_at (foldl (fun st r => assign_class ClsC r st) store refs) i
    = Some ClsC.
Proof.
  induction refs as [|r refs IH]; intros store i Hi H; simpl.
  - destruct H as [H|H]; [|exact H]. now apply not_elem_of_nil in H.
  - apply IH; [now rewrite assign_class_length|].
    destruct (decide (r = i)) as [->|Hne].
    + right. now apply class_at_assign_eq.
    + destruct H as [H|H].
      * left. apply elem_of_cons in H as [H|H]; [congruence|exact H].
      * right. now rewrite class_at_assign_ne.
Qed.








(** ** Annual consumption value *)










(** ** Histograms and the measured coefficient of variation *)












Lemma monthly_values_length (monthly : gmap string Q) :
  length (map_to_list monthly).*2 = size monthly.
Proof. rewrite length_fmap. apply length_map_to_list. Qed.

Section XYZ_measured.
Variable sqrtQ : Q -> Q.
Hypothesis sqrtQ_nonneg : forall x, 0 <= x -> 0 <= sqrtQ x.


End XYZ_measured.



(** * Further properties of the readers and classifiers *)

(** ** Depletion reader: failures and the record set it builds *)





Lemma odict_keys_set {V : Type} (k : string) (v : V) d x :
  x ∈ ODict.keys (ODict.set k v d) -> x = k \/ x ∈ ODict.keys d.
Proof.
  unfold ODict.keys. induction d as [|[k' v'] d IH]; simpl.
  - intros H. apply elem_of_cons in H as [->|H]; [now left|].
    now apply not_elem_of_nil in H.
  - destruct (String.eqb k k') eqn:E; simpl.
    + intros H. now right.
    + intros H. apply elem_of_cons in H as [->|H].
      * right. now left.
      * destruct (IH H) as [->|Hin]; [now left|]. right. now right.
Qed.

Lemma odict_set_NoDup {V : Type} (k : string) (v : V) d :
  NoDup (ODict.keys d) -> NoDup (ODict.keys (ODict.set k v d)).
Proof.
  unfold ODict.keys. induction d as [|[k' v'] d IH]; simpl; intros Hnd.
  - constructor; [apply not_elem_of_nil|constructor].
  - apply NoDup_cons in Hnd as [Hk' Hnd].
    destruct (String.eqb k k') eqn:E; simpl.
    + constructor; assumption.
    + constructor; [|now apply IH].
      intros Hin. apply odict_keys_set in Hin as [->|Hin].
      * rewrite String.eqb_refl in E. discriminate.
      * contradiction.
Qed.

Lemma odict_set_Forall {V : Type} (P : string * V -> Prop) k v d :
  Forall P d -> P (k, v) -> Forall P (ODict.set k v d).
Proof.
  intros Hd Hkv. induction Hd as [|[k' v'] d Hx Hd IH]; simpl.
  - repeat constructor. exact Hkv.
  - destruct (String.eqb k k') eqn:E.
    + apply String.eqb_eq in E. subst k'. constructor; assumption.
    + constructor; assumption.
Qed.

Lemma odict_get_Forall {V : Type} (P : string * V -> Prop) k v d :
  Forall P d -> ODict.get k d = Some v -> P (k, v).
Proof.
  induction 1 as [|[k' v'] d Hx Hd IH]; simpl; [discriminate|].
  destruct (String.eqb k k') eqn:E; [|exact IH].
  apply String.eqb_eq in E. subst k'. intros [= <-]. exact Hx.
Qed.

Lemma odict_get_elem {V : Type} k (v : V) d :
  NoDup (ODict.keys d) -> (k, v) ∈ d -> ODict.get k d = Some v.
Proof.
  unfold ODict.keys. induction d as [|[k' v'] d IH]; simpl; intros Hnd Hin.
  - now apply not_elem_of_nil in Hin.
  - apply NoDup_cons in Hnd as [Hk' Hnd].
    apply elem_of_cons in Hin as [[= <- <-]|Hin].
    + now rewrite String.eqb_refl.
    + destruct (String.eqb k k') eqn:E; [|now apply IH].
      apply String.eqb_eq in E. subst k'. exfalso. apply Hk'.
      apply list_elem_of_fmap. exists (k, v). split; [reflexivity|exact Hin].
Qed.

Definition dep_invariant (st : DepletionState) : Prop :=
  NoDup (ODict.keys (dep_skus st))
  /\ Forall (fun ks => unclassified ks.1 ks.2) (dep_skus st).

Lemma merge_sighting_unclassified k existing a w b rc sh e wh :
  unclassified k existing ->
  unclassified k (merge_sighting existing a w b rc sh e wh).
Proof.
  unfold unclassified, merge_sighting. simpl.
  destruct (Qltb _ _); simpl; tauto.
Qed.

Lemma dep_data_row_invariant cell0 r st :
  cell0 <> "" -> dep_invariant st -> dep_invariant (dep_data_row cell0 r st).
Proof.
  intros Hne [Hnd Hall]. unfold dep_data_row.
  destruct (ODict.get cell0 (dep_skus st)) as [existing|] eqn:E;
    split; simpl; try (now apply odict_set_NoDup);
    apply odict_set_Forall; try exact Hall; simpl.
  - apply merge_sighting_unclassified.
    exact (odict_get_Forall _ _ _ _ Hall E).
  - unfold unclassified. simpl. tauto.
Qed.

Lemma dep_step_invariant st r st' :
  dep_invariant st -> dep_step st r = Some st' -> dep_invariant st'.
Proof.
  intros Hinv. unfold dep_step.
  destruct (r !! 0%nat) as [c0|]; [|discriminate].
  destruct (PyStr.startswith _ "Warehouse:"); [intros [= <-]; exact Hinv|].
  destruct (String.eqb (PyStr.strip (text_of c0)) "") eqn:E0; simpl.
  { intros [= <-]. exact Hinv. }
  apply String.eqb_neq in E0.
  destruct (_ || _); [intros [= <-]; exact Hinv|].
  destruct (r !! 2%nat) as [[| | |]|]; try discriminate;
    try (intros [= <-]; now apply dep_data_row_invariant).
  destruct (r !! 3%nat) as [c3|]; [|discriminate].
  destruct (_ || _); intros [= <-]; [exact Hinv|].
  now apply dep_data_row_invariant.
Qed.

Lemma dep_loop_invariant rows :
  forall st st',
    dep_invariant st -> dep_loop st rows = Some st' -> dep_invariant st'.
Proof.
  induction rows as [|r rows IH]; intros st st' Hinv; simpl.
  - intros [= <-]. exact Hinv.
  - destruct (dep_step st r) as [st1|] eqn:E; [|discriminate].
    apply IH. eapply dep_step_invariant; eassumption.
Qed.

Lemma parse_depletion_invariant rows skus :
  parse_depletion rows = Some skus ->
  NoDup (ODict.keys skus)
  /\ Forall (fun ks => unclassified ks.1 ks.2) skus.
Proof.
  unfold parse_depletion.
  destruct (dep_loop dep_init rows) as [st|] eqn:E; [|discriminate].
  intros [= <-]. apply (dep_loop_invariant rows dep_init st); [|exact E].
  split; simpl; constructor.
Qed.

(** X2: the record set [parse_depletion] returns has each SKU code
    once; every record is found under its own code (its [sku_code] is
    its key, and the key is not empty), and it carries no cost, annual
    value, histogram, CV or class yet. *)
Theorem parse_depletion_records (rows : list row)
    (skus : list (string * SKUData)) :
  parse_depletion rows = Some skus ->
  NoDup (ODict.keys skus)
  /\ forall k s,
       (k, s) ∈ skus ->
       ODict.get k skus = Some s /\ unclassified k s.
Proof.
  intros H. apply parse_depletion_invariant in H as [Hnd Hall].
  split; [exact Hnd|]. intros k s Hin.
  split; [now apply odict_get_elem|].
  rewrite Forall_forall in Hall. exact (Hall (k, s) Hin).
Qed.

Lemma parse_depletion_records_witness :
  exists skus,
    parse_depletion sheet_3_then_7 = Some skus
    /\ NoDup (ODict.keys skus)
    /\ forall k s,
         (k, s) ∈ skus ->
         ODict.get k skus = Some s /\ unclassified k s.
Proof.
  eexists.
  assert (H : parse_depletion sheet_3_then_7 = Some _)
    by (vm_compute; reflexivity).
  split; [exact H|].
  exact (parse_depletion_records sheet_3_then_7 _ H).
Defined.

(** ** Item master reader: failures and the items it stores *)

Lemma view_step_None st r : view_step st r = None <-> r = [].
Proof.
  unfold view_step. destruct (r !! 0%nat) as [c0|] eqn:E0.
  - assert (Hne : r <> []) by (intros ->; discriminate).
    split; [|intros ->; contradiction]. intros H. exfalso.
    destruct (starts_with_any _ skip_prefixes); [discriminate|].
    destruct (negb _).
    + destruct (r !! 9%nat) as [[| cost_val repr | |]|] eqn:E9;
        try discriminate.
      destruct (Qltb 0 cost_val); [|discriminate].
      destruct (r !! 1%nat) as [c1|] eqn:E1; [discriminate|].
      apply lookup_lt_Some in E9. apply lookup_ge_None in E1. lia.
    + destruct (current_sku st) as [k|]; [|discriminate].
      destruct (if String.eqb k "" then None else items st !! k);
        [|discriminate].
      destruct (next_is_dimensions st); discriminate.
  - destruct r; [tauto|discriminate].
Qed.

Lemma view_rows_None rows :
  forall st, view_rows st rows = None <-> [] ∈ rows.
Proof.
  induction rows as [|r rows IH]; intros st; simpl.
  - split; [discriminate|]. intros H. now apply not_elem_of_nil in H.
  - destruct (view_step st r) as [st'|] eqn:E.
    + rewrite IH. split; [intros H; now right|].
      intros H. apply elem_of_cons in H as [<-|H]; [|exact H].
      assert (view_step st [] = None) by now apply view_step_None.
      congruence.
    + apply view_step_None in E. subst r. split; [|reflexivity].
      intros _. now left.
Qed.

(** X3: [parse_view_item] fails (with an [IndexError]) exactly when
    some sheet holds an empty row; no other content of a row stops the
    reader. *)
Theorem parse_view_item_fails_iff (sheets : list (list row)) :
  parse_view_item sheets = None
  <-> exists rows, rows ∈ sheets /\ [] ∈ rows.
Proof.
  unfold parse_view_item. generalize (∅ : gmap string Item).
  induction sheets as [|rows sheets IH]; intros its; simpl.
  - split; [discriminate|]. intros (rows & H & _).
    now apply not_elem_of_nil in H.
  - destruct (view_rows _ rows) as [st|] eqn:E.
    + rewrite IH. split.
      * intros (rows' & H & He). exists rows'. split; [now right|exact He].
      * intros (rows' & H & He). apply elem_of_cons in H as [->|H].
        -- apply (view_rows_None rows (mkView its None "" false)) in He.
           congruence.
        -- eauto.
    + apply view_rows_None in E. split; [|reflexivity].
      intros _. exists rows. split; [now left|exact E].
Qed.

Section ItemInvariant.
Variable P : Item -> Prop.
Hypothesis P_new :
  forall c d sup, 0 < c -> P (mkItem c d 0 0 0 0 1 sup).
Hypothesis P_dims :
  forall it l w h wt u,
    P it -> 0 < l -> ~ u == 0 -> it_length_in it == 0 ->
    P (set_dimensions l w h wt u it).

Lemma view_step_items st r st' :
  map_Forall (fun _ => P) (items st) -> view_step st r = Some st' ->
  map_Forall (fun _ => P) (items st').
Proof.
  intros Hall. unfold view_step.
  destruct (r !! 0%nat) as [c0|]; [|discriminate].
  destruct (starts_with_any _ _); [intros [= <-]; exact Hall|].
  destruct (negb _).
  - destruct (r !! 9%nat) as [[| cost_val repr | |]|];
      try (intros [= <-]; exact Hall).
    destruct (Qltb 0 cost_val) eqn:Ec; [|intros [= <-]; exact Hall].
    destruct (r !! 1%nat) as [c1|]; [|discriminate].
    intros [= <-]. simpl. apply map_Forall_insert_2; [|exact Hall].
    apply P_new. now apply Qltb_lt.
  - destruct (current_sku st) as [k|]; [|intros [= <-]; exact Hall].
    destruct (String.eqb k ""); [intros [= <-]; exact Hall|].
    destruct (items st !! k) as [it|] eqn:Ek; [|intros [= <-]; exact Hall].
    destruct (next_is_dimensions st); intros [= <-]; [|exact Hall].
    simpl. unfold view_dimensions_row.
    destruct (dim_units_of r) as [u|] eqn:Eu; [|exact Hall].
    destruct (negb _); [|exact Hall].
    destruct (Qltb 0 (num_or r 6 0)) eqn:El; [|exact Hall].
    destruct (Qeq_bool (it_length_in it) 0) eqn:Ez; [|exact Hall].
    simpl. apply map_Forall_insert_2; [|exact Hall].
    apply P_dims.
    + exact (Hall k it Ek).
    + now apply Qltb_lt.
    + unfold dim_units_of in Eu.
      destruct (r !! 3%nat) as [[| q repr | |]|]; try discriminate.
      destruct (Qeq_bool q 0) eqn:Eq; [discriminate|].
      injection Eu as <-. now apply Qeq_bool_false.
    + now apply Qeq_bool_iff.
Qed.

Lemma view_rows_items rows :
  forall st st',
    map_Forall (fun _ => P) (items st) -> view_rows st rows = Some st' ->
    map_Forall (fun _ => P) (items st').
Proof.
  induction rows as [|r rows IH]; intros st st' Hall; simpl.
  - intros [= <-]. exact Hall.
  - destruct (view_step st r) as [st1|] eqn:E; [|discriminate].
    apply IH. eapply view_step_items; eassumption.
Qed.

Lemma parse_view_item_items sheets its :
  parse_view_item sheets = Some its -> map_Forall (fun _ => P) its.
Proof.
  unfold parse_view_item.
  assert (H0 : map_Forall (fun _ => P) (∅ : gmap string Item))
    by apply map_Forall_empty.
  revert H0. generalize (∅ : gmap string Item).
  induction sheets as [|rows sheets IH]; intros its0 H0; simpl.
  - intros [= <-]. exact H0.
  - destruct (view_rows _ rows) as [st|] eqn:E; [|discriminate].
    apply IH. eapply view_rows_items; [|exact E]. exact H0.
Qed.

End ItemInvariant.

(** X4: every item [parse_view_item] returns has a positive cost, and
    its dimensions are either the defaults of a SKU row (length, width,
    height, weight 0 and unit count 1) or those of a dimensions row
    whose length was positive and whose unit count was not zero: a
    length that is zero or negative is never stored. *)
Theorem parse_view_item_items_shape (sheets : list (list row))
    (its : gmap string Item) (k : string) (it : Item) :
  parse_view_item sheets = Some its ->
  its !! k = Some it ->
  0 < cost it
  /\ (default_dimensions it
      \/ (0 < it_length_in it /\ ~ it_dim_uom_units it == 0)).
Proof.
  intros Hparse Hk.
  refine (parse_view_item_items
            (fun it => 0 < cost it
                       /\ (default_dimensions it
                           \/ (0 < it_length_in it
                               /\ ~ it_dim_uom_units it == 0)))
            _ _ sheets its Hparse k it Hk).
  - intros c d sup Hc. split; [exact Hc|]. left.
    unfold default_dimensions. simpl. tauto.
  - intros it0 l w h wt u [Hc _] Hl Hu _. split; [exact Hc|].
    right. simpl. tauto.
Qed.

Lemma parse_view_item_items_shape_witness :
  exists its it,
    parse_view_item [sheet_flat_dimensions] = Some its
    /\ its !! "S1" = Some it
    /\ 0 < cost it
    /\ (default_dimensions it
        \/ (0 < it_length_in it /\ ~ it_dim_uom_units it == 0)).
Proof.
  eexists. eexists.
  assert (H1 : parse_view_item [sheet_flat_dimensions] = Some _)
    by (vm_compute; reflexivity).
  assert (H2 : ({[ "S1" := set_dimensions 5 0 0 0 1
                            (mkItem 5 "part" 0 0 0 0 1 "TianJin") ]}
                : gmap string Item) !! "S1" = Some _)
    by (vm_compute; reflexivity).
  split; [exact H1|]. split; [exact H2|].
  exact (parse_view_item_items_shape _ _ _ _ H1 H2).
Defined.

(** ** Activity aggregator: files and histograms *)

Lemma act_step_closed st r :
  is_sku_header r = false -> act_current_sku st = None -> act_step st r = st.
Proof. intros Hh Hc. unfold act_step. now rewrite Hh, Hc. Qed.

Lemma act_rows_closed rows :
  forall st,
    Forall (fun r => is_sku_header r = false) rows ->
    act_current_sku st = None ->
    foldl act_step st rows = st.
Proof.
  induction rows as [|r rows IH]; intros st Hall Hc; simpl; [reflexivity|].
  apply Forall_cons in Hall as [Hr Hall].
  rewrite (act_step_closed st r Hr Hc). now apply IH.
Qed.

(** X5: the open SKU does not carry over from one activity file to the
    next: a file without a SKU header row adds nothing to the histogram
    and to the counters, whatever the files before it left open. *)
Theorem act_file_without_header (st : ActivityState) (rows : list row) :
  Forall (fun r => is_sku_header r = false) rows ->
  monthly_out (act_file st rows) = monthly_out st
  /\ total_transactions (act_file st rows) = total_transactions st
  /\ filtered_adjustments (act_file st rows) = filtered_adjustments st
  /\ filtered_moves (act_file st rows) = filtered_moves st.
Proof.
  intros Hall. unfold act_file.
  rewrite (act_rows_closed rows
             (mkAct (monthly_out st) (total_transactions st)
                (filtered_adjustments st) (filtered_moves st) None
                0%nat 0%nat) Hall eq_refl).
  simpl. tauto.
Qed.

Lemma act_file_without_header_witness :
  Forall (fun r => is_sku_header r = false)
    [tx_row (CText "1/7/2024") "SO-4471" 12]
  /\ monthly_out
       (act_file (foldl act_step act_init sheet_filtered)
          [tx_row (CText "1/7/2024") "SO-4471" 12])
     = monthly_out (foldl act_step act_init sheet_filtered).
Proof.
  assert (H : Forall (fun r => is_sku_header r = false)
                [tx_row (CText "1/7/2024") "SO-4471" 12])
    by (repeat constructor).
  split; [exact H|].
  exact (proj1 (act_file_without_header
                  (foldl act_step act_init sheet_filtered) _ H)).
Defined.

Lemma add_qty_inhabited k mk qty mo :
  k <> "" -> histograms_inhabited mo ->
  histograms_inhabited (add_qty k mk qty mo).
Proof.
  intros Hk Hin k' h' H. unfold add_qty in H. rewrite lookup_insert in H.
  destruct (decide (k = k')) as [<-|Hne]; [|exact (Hin k' h' H)].
  injection H as <-. split; [exact Hk|].
  intros Hz. apply map_size_empty_inv in Hz.
  apply (f_equal (fun m => m !! mk)) in Hz.
  rewrite lookup_insert_eq, lookup_empty in Hz. discriminate.
Qed.

Lemma act_step_inhabited st r :
  histograms_inhabited (monthly_out st) ->
  histograms_inhabited (monthly_out (act_step st r)).
Proof.
  intros Hin. unfold act_step.
  destruct (is_sku_header r); [exact Hin|].
  destruct (act_current_sku st) as [sku|]; [|exact Hin].
  destruct (String.eqb sku "") eqn:Es; [exact Hin|].
  destruct (non_date_text _); [exact Hin|].
  destruct (row_date r) as [[y m]|]; [|exact Hin].
  destruct (is_adjustment _); [exact Hin|].
  destruct (is_move _); [exact Hin|].
  destruct (Qltb 0 (num_or r 10 0)); [|exact Hin].
  simpl. apply add_qty_inhabited; [|exact Hin]. now apply String.eqb_neq.
Qed.

Lemma parse_activity_reports_inhabited files :
  histograms_inhabited (parse_activity_reports files).
Proof.
  unfold parse_activity_reports.
  assert (H0 : histograms_inhabited (monthly_out act_init)).
  { intros k h H. simpl in H. rewrite lookup_empty in H. discriminate. }
  revert H0. generalize act_init.
  induction files as [|rows files IH]; intros st H0; simpl; [exact H0|].
  apply IH. unfold act_file.
  assert (H1 : histograms_inhabited
                 (monthly_out
                    (mkAct (monthly_out st) (total_transactions st)
                       (filtered_adjustments st) (filtered_moves st) None
                       0%nat 0%nat))) by exact H0.
  revert H1. generalize (mkAct (monthly_out st) (total_transactions st)
                           (filtered_adjustments st) (filtered_moves st)
                           None 0%nat 0%nat).
  induction rows as [|r rows IHr]; intros st1 H1; simpl; [exact H1|].
  apply IHr, act_step_inhabited, H1.
Qed.

(** X6: the aggregator never returns an empty histogram, nor one under
    the empty code; so on its output the three [monthly_data.get] of
    [compute_xyz], which skip an empty histogram, resolve a code exactly
    as the [in]-tests of [compute_abc] and [merge_master_data] do. *)
Theorem resolve_monthly_on_reports (files : list (list row))
    (sku_code : string) :
  let md := parse_activity_reports files in
  (forall k h, md !! k = Some h -> k <> "" /\ size h <> 0%nat)
  /\ resolve_monthly md sku_code = default ∅ (lookup_variants md sku_code).
Proof.
  intros md. pose proof (parse_activity_reports_inhabited files) as Hin.
  fold md in Hin. split; [exact Hin|].
  unfold resolve_monthly, lookup_variants.
  destruct (md !! sku_code) as [h1|] eqn:E1; simpl.
  - destruct (Hin _ _ E1) as [_ Hs]. apply Nat.eqb_neq in Hs.
    rewrite Hs. simpl. now rewrite Hs.
  - rewrite map_size_empty. simpl.
    destruct (md !! PyStr.rstrip "GT" sku_code) as [h2|] eqn:E2; simpl.
    + destruct (Hin _ _ E2) as [_ Hs]. apply Nat.eqb_neq in Hs.
      now rewrite Hs.
    + rewrite map_size_empty. reflexivity.
Qed.

(** ** The pipeline: when it fails and what it returns *)



Lemma keys_erase (l1 l2 : list (string * SKUData)) :
  map erase_class l1 = map erase_class l2 -> ODict.keys l1 = ODict.keys l2.
Proof.
  intros H. unfold ODict.keys.
  assert (E : forall l, map fst l = map fst (map erase_class l)).
  { intros l. rewrite map_map. reflexivity. }
  now rewrite (E l1), (E l2), H.
Qed.

Lemma merge_master_data_keys skus its :
  ODict.keys (merge_master_data skus its) = ODict.keys skus.
Proof.
  unfold ODict.keys, merge_master_data. rewrite map_map.
  apply map_ext. intros [k s]. reflexivity.
Qed.

Lemma compute_abc_keys skus costs :
  ODict.keys (compute_abc skus costs) = ODict.keys skus.
Proof.
  rewrite (keys_erase _ _ (compute_abc_erase skus costs)).
  unfold ODict.keys, abc_values. rewrite map_map.
  apply map_ext. intros [k s]. reflexivity.
Qed.




Lemma compute_abc_classified skus costs i k s :
  compute_abc skus costs !! i = Some (k, s) -> is_Some (abc_class s).
Proof.
  intros Hi.
  assert (Hlen : (i < length (abc_values skus costs))%nat).
  { apply lookup_lt_Some in Hi. rewrite compute_abc_length in Hi.
    unfold abc_values. now rewrite length_map. }
  assert (Hc : is_Some (class_at (compute_abc skus costs) i)).
  { destruct (Qle_bool (total_value (abc_values skus costs)) 0) eqn:Et.
    - exists ClsC. unfold compute_abc, abc_run. rewrite Et. simpl.
      apply assign_all_C; [exact Hlen|]. left.
      rewrite sorted_skus_perm. apply elem_of_seq. lia.
    - apply Qle_bool_false in Et.
      assert (Hin : i ∈ sorted_skus (abc_values skus costs)).
      { rewrite sorted_skus_perm. apply elem_of_seq. lia. }
      apply list_elem_of_lookup_1 in Hin as [p Hp].
      rewrite (compute_abc_classes skus costs Et p i Hp).
      apply lookup_lt_is_Some_2.
      rewrite final_classes_length, length_map.
      eapply lookup_lt_Some, Hp. }
  unfold class_at in Hc. now rewrite Hi in Hc.
Qed.

Lemma compute_abc_sku_code skus costs i k s :
  compute_abc skus costs !! i = Some (k, s) ->
  exists s0, skus !! i = Some (k, s0) /\ sku_code s = sku_code s0.
Proof.
  intros Hi.
  destruct (erase_eq_lookup _ _ _ _ (compute_abc_erase skus costs) Hi)
    as ([k0 s1] & H0 & He).
  unfold abc_values in H0. change (map ?f skus) with (f <$> skus) in H0.
  rewrite list_lookup_fmap in H0.
  destruct (skus !! i) as [[k1 s0]|]; [|discriminate].
  simpl in H0. injection H0 as <- <-.
  exists s0. pose proof (f_equal fst He) as Hk. simpl in Hk. subst k1.
  split; [reflexivity|].
  apply (f_equal snd) in He. unfold erase_class in He. cbn [snd fst] in He.
  change (sku_code s) with (sku_code (set_abc_class None s)).
  now rewrite He.
Qed.

(** X8: when the run succeeds, the classified record set has the keys
    of the depletion reader's record set, in the same order, and every
    record still carries its key as [sku_code] and has an ABC class, an
    XYZ class and a CV. *)
Theorem classify_result (sqrtQ : Q -> Q) (depletion : list row)
    (view_item activity : list (list row))
    (out : list (string * SKUData)) :
  classify sqrtQ depletion view_item activity = Some out ->
  exists skus,
    parse_depletion depletion = Some skus
    /\ ODict.keys out = ODict.keys skus
    /\ NoDup (ODict.keys out)
    /\ forall i k s,
         out !! i = Some (k, s) ->
         sku_code s = k /\ is_Some (abc_class s)
         /\ is_Some (xyz_class s) /\ is_Some (cv s).
Proof.
  unfold classify.
  destruct (parse_depletion depletion) as [skus|] eqn:Ed; [|discriminate].
  destruct (parse_view_item view_item) as [its|]; [|discriminate].
  set (md := parse_activity_reports activity).
  set (abc := compute_abc (merge_master_data skus its) its).
  unfold compute_xyz. destruct abc as [|ks abc'] eqn:Eabc; [discriminate|].
  rewrite <- Eabc. intros [= <-]. exists skus. split; [reflexivity|].
  destruct (parse_depletion_invariant _ _ Ed) as [Hnd Hall].
  assert (Hkeys : ODict.keys (map (fun '(k, s) => (k, xyz_one sqrtQ md k s))
                                abc) = ODict.keys skus).
  { unfold ODict.keys. rewrite map_map.
    transitivity (ODict.keys abc).
    - unfold ODict.keys. apply map_ext. intros [k s]. reflexivity.
    - unfold abc. now rewrite compute_abc_keys, merge_master_data_keys. }
  split; [exact Hkeys|]. split; [now rewrite Hkeys|].
  intros i k s Hi.
  change (map ?f abc) with (f <$> abc) in Hi.
  rewrite list_lookup_fmap in Hi.
  destruct (abc !! i) as [[k1 s1]|] eqn:Hi1; [|discriminate].
  simpl in Hi. injection Hi as <- <-.
  pose proof (compute_abc_classified _ _ _ _ _ Hi1) as Hcls.
  destruct (compute_abc_sku_code _ _ _ _ _ Hi1) as (s0 & Hm & Hcode).
  unfold merge_master_data in Hm. change (map ?f skus) with (f <$> skus) in Hm.
  rewrite list_lookup_fmap in Hm.
  destruct (skus !! i) as [[k2 s2]|] eqn:Hi2; [|discriminate].
  simpl in Hm. injection Hm as <- <-.
  assert (Hs2 : sku_code s2 = k2).
  { rewrite Forall_forall in Hall.
    apply (proj1 (Hall (k2, s2) (list_elem_of_lookup_2 _ _ _ Hi2))). }
  assert (Hmerge : sku_code (merge_one its k2 s2) = sku_code s2).
  { unfold merge_one. destruct (lookup_variants its k2); [|reflexivity].
    simpl. destruct (String.eqb _ ""); reflexivity. }
  unfold xyz_one.
  destruct (MIN_MONTHS_FOR_XYZ <=? size (resolve_monthly md k2))%nat; simpl;
    (split; [congruence|]); (split; [exact Hcls|]); split; eexists;
    reflexivity.
Qed.

Lemma classify_result_witness :
  exists out skus,
    classify sqrt_approx sheet_3_then_7 [sheet_flat_dimensions]
      [sheet_six_months] = Some out
    /\ parse_depletion sheet_3_then_7 = Some skus
    /\ ODict.keys out = ODict.keys skus
    /\ NoDup (ODict.keys out)
    /\ forall i k s,
         out !! i = Some (k, s) ->
         sku_code s = k /\ is_Some (abc_class s)
         /\ is_Some (xyz_class s) /\ is_Some (cv s).
Proof.
  assert (H : classify sqrt_approx sheet_3_then_7 [sheet_flat_dimensions]
                [sheet_six_months]
              = Some (default []
                        (classify sqrt_approx sheet_3_then_7
                           [sheet_flat_dimensions] [sheet_six_months])))
    by (vm_compute; reflexivity).
  destruct (classify_result _ _ _ _ _ H) as (skus & H1 & H2).
  eexists. exists skus. split; [exact H|]. split; [exact H1|exact H2].
Defined.

(** ** ABC: the counters of the summary *)













(** ** Key lookups: codes that do not end in G or T *)

Lemma rstrip_by_app p (s t : string) :
  PyStr.rstrip_by p (s ++ t)
  = match PyStr.rstrip_by p t with
    | EmptyString => PyStr.rstrip_by p s
    | r => s ++ r
    end.
Proof.
  induction s as [|c s IH].
  - change ("" ++ t) with t. destruct (PyStr.rstrip_by p t); reflexivity.
  - change (String c s ++ t) with (String c (s ++ t)).
    cbn [PyStr.rstrip_by]. rewrite IH.
    destruct (PyStr.rstrip_by p t) as [|c' r]; [reflexivity|].
    change (String c s ++ String c' r) with (String c (s ++ String c' r)).
    destruct (s ++ String c' r) eqn:E; [|reflexivity].
    destruct s; discriminate.
Qed.

Lemma rstrip_GT_suffix (base : string) :
  PyStr.rstrip "GT" (base ++ "GT") = PyStr.rstrip "GT" base.
Proof. unfold PyStr.rstrip. now rewrite rstrip_by_app. Qed.

(** X10: for a code that does not end in G or T ([rstrip('GT')] leaves
    it unchanged) the lookup is symmetric in the suffix: an entry stored
    only under the bare code is found when the code is queried with
    [GT] appended, and an entry stored only with [GT] is found from the
    bare code. *)
Theorem lookup_variants_suffix_symmetry {V : Type} (m : gmap string V)
    (base : string) (v : V) :
  PyStr.rstrip "GT" base = base ->
  (m !! base = Some v -> m !! (base ++ "GT") = None ->
   lookup_variants m (base ++ "GT") = Some v)
  /\ (m !! base = None -> m !! (base ++ "GT") = Some v ->
      lookup_variants m base = Some v).
Proof.
  intros Hb. split; intros H1 H2; unfold lookup_variants.
  - now rewrite H2, rstrip_GT_suffix, Hb, H1.
  - now rewrite Hb, H1.
Qed.

Lemma lookup_variants_suffix_symmetry_witness :
  PyStr.rstrip "GT" "1272762" = "1272762"
  /\ lookup_variants ({[ "1272762" := fresh_item 5 ]} : gmap string Item)
       ("1272762" ++ "GT") = Some (fresh_item 5)
  /\ lookup_variants ({[ "1272762GT" := fresh_item 5 ]} : gmap string Item)
       "1272762" = Some (fresh_item 5).
Proof.
  assert (H : PyStr.rstrip "GT" "1272762" = "1272762") by reflexivity.
  split; [exact H|]. split.
  - apply (proj1 (lookup_variants_suffix_symmetry _ "1272762" _ H));
      vm_compute; reflexivity.
  - apply (proj2 (lookup_variants_suffix_symmetry _ "1272762" _ H));
      vm_compute; reflexivity.
Defined.

(** ** Master-data merge and the cost of the ABC classifier *)

(** X11: on records that had no unit cost before the merge (as the
    depletion reader leaves them), [compute_abc] stores the unit cost
    [merge_master_data] stored: the cost of the matched item, or 0 when
    no key variant matches. *)
Theorem compute_abc_keeps_merged_cost
    (skus : list (string * SKUData)) (its : gmap string Item)
    (i : nat) (k : string) (s : SKUData) :
  Forall (fun ks => unit_cost ks.2 = 0) skus ->
  compute_abc (merge_master_data skus its) its !! i = Some (k, s) ->
  exists s1,
    merge_master_data skus its !! i = Some (k, s1)
    /\ unit_cost s = unit_cost s1
    /\ unit_cost s = match lookup_variants its k with
                     | Some item => cost item
                     | None => 0
                     end.
Proof.
  intros Hzero Hi.
  destruct (erase_eq_lookup _ _ _ _
              (compute_abc_erase (merge_master_data skus its) its) Hi)
    as ([k0 s0] & H0 & He).
  unfold abc_values in H0. change (map ?f ?l) with (f <$> l) in H0.
  rewrite list_lookup_fmap in H0.
  destruct (merge_master_data skus its !! i) as [[k1 s1]|] eqn:Hm;
    [|discriminate].
  simpl in H0. injection H0 as <- <-.
  pose proof (f_equal fst He) as Hk. simpl in Hk. subst k1.
  exists s1. split; [reflexivity|].
  apply (f_equal snd) in He. unfold erase_class in He. cbn [snd fst] in He.
  assert (Huc : unit_cost s = unit_cost (abc_value_one its k s1)).
  { change (unit_cost s) with (unit_cost (set_abc_class None s)).
    now rewrite He. }
  rewrite Huc. unfold abc_value_one. simpl. split; [|reflexivity].
  unfold merge_master_data in Hm. change (map ?f ?l) with (f <$> l) in Hm.
  rewrite list_lookup_fmap in Hm.
  destruct (skus !! i) as [[k2 s2]|] eqn:Hs; [|discriminate].
  simpl in Hm. injection Hm as <- <-.
  unfold merge_one. destruct (lookup_variants its k2) as [item|].
  - simpl. destruct (String.eqb _ ""); reflexivity.
  - rewrite Forall_forall in Hzero. symmetry.
    exact (Hzero (k2, s2) (list_elem_of_lookup_2 _ _ _ Hs)).
Qed.

Lemma compute_abc_keeps_merged_cost_witness :
  exists s s1,
    compute_abc (merge_master_data example_skus example_costs)
      example_costs !! 1%nat = Some ("S1", s)
    /\ merge_master_data example_skus example_costs !! 1%nat
       = Some ("S1", s1)
    /\ unit_cost s = unit_cost s1
    /\ unit_cost s = match lookup_variants example_costs "S1" with
                     | Some item => cost item
                     | None => 0
                     end.
Proof.
  assert (H0 : Forall (fun ks : string * SKUData => unit_cost ks.2 = 0)
                 example_skus) by (repeat constructor).
  assert (H1 : compute_abc (merge_master_data example_skus example_costs)
                 example_costs !! 1%nat
               = Some ("S1",
                       default (new_sku "")
                         (snd <$> compute_abc
                                    (merge_master_data example_skus
                                       example_costs)
                                    example_costs !! 1%nat)))
    by (vm_compute; reflexivity).
  destruct (compute_abc_keeps_merged_cost _ _ _ _ _ H0 H1) as (s1 & H2).
  eexists. exists s1. split; [exact H1|exact H2].
Defined.

(** ** Depletion reader: velocity summed over all sightings *)









(** ** Supplier names *)

Lemma is_space_lower (c : ascii) :
  PyStr.is_space (PyStr.lower_ascii c) = PyStr.is_space c.
Proof.
  destruct c as [[] [] [] [] [] [] [] []]; vm_compute; reflexivity.
Qed.

Lemma lower_lstrip (s : string) :
  PyStr.lower (PyStr.lstrip_by PyStr.is_space s)
  = PyStr.lstrip_by PyStr.is_space (PyStr.lower s).
Proof.
  induction s as [|c s IH]; [reflexivity|].
  cbn [PyStr.lstrip_by PyStr.lower]. rewrite is_space_lower.
  destruct (PyStr.is_space c); [exact IH|reflexivity].
Qed.

Lemma lower_rstrip (s : string) :
  PyStr.lower (PyStr.rstrip_by PyStr.is_space s)
  = PyStr.rstrip_by PyStr.is_space (PyStr.lower s).
Proof.
  induction s as [|c s IH]; [reflexivity|].
  cbn [PyStr.rstrip_by PyStr.lower]. rewrite <- IH, is_space_lower.
  destruct (PyStr.rstrip_by PyStr.is_space s) as [|c' r]; simpl.
  - destruct (PyStr.is_space c); reflexivity.
  - reflexivity.
Qed.

Lemma lower_strip (s : string) :
  PyStr.lower (PyStr.strip s) = PyStr.strip (PyStr.lower s).
Proof. unfold PyStr.strip. now rewrite lower_rstrip, lower_lstrip. Qed.

Lemma rstrip_by_idem p (s : string) :
  PyStr.rstrip_by p (PyStr.rstrip_by p s) = PyStr.rstrip_by p s.
Proof.
  induction s as [|c s IH]; [reflexivity|].
  cbn [PyStr.rstrip_by].
  destruct (PyStr.rstrip_by p s) as [|c' r] eqn:E.
  - destruct (p c) eqn:Ep; [reflexivity|].
    cbn [PyStr.rstrip_by]. now rewrite Ep.
  - change (PyStr.rstrip_by p (String c (String c' r)))
      with (match PyStr.rstrip_by p (String c' r) with
            | EmptyString => if p c then EmptyString else String c EmptyString
            | String a b => String c (String a b)
            end).
    now rewrite IH.
Qed.

Lemma lstrip_by_head p (s : string) :
  match PyStr.lstrip_by p s with
  | EmptyString => True
  | String c _ => p c = false
  end.
Proof.
  induction s as [|c s IH]; simpl; [exact I|].
  destruct (p c) eqn:E; [exact IH|exact E].
Qed.

Lemma rstrip_by_keeps_head p c (s : string) :
  p c = false ->
  exists r, PyStr.rstrip_by p (String c s) = String c r.
Proof.
  intros Hc. cbn [PyStr.rstrip_by].
  destruct (PyStr.rstrip_by p s); [rewrite Hc|]; eauto.
Qed.

Lemma strip_idem (s : string) : PyStr.strip (PyStr.strip s) = PyStr.strip s.
Proof.
  unfold PyStr.strip.
  pose proof (lstrip_by_head PyStr.is_space s) as Hh.
  destruct (PyStr.lstrip_by PyStr.is_space s) as [|c t] eqn:E.
  - reflexivity.
  - destruct (rstrip_by_keeps_head PyStr.is_space c t Hh) as [r Hr].
    rewrite Hr. cbn [PyStr.lstrip_by]. rewrite Hh.
    rewrite <- Hr. apply rstrip_by_idem.
Qed.

Lemma first_alias_code tbl lower code :
  first_alias tbl lower = Some code -> code ∈ map snd tbl.
Proof.
  induction tbl as [|[key c] tbl IH]; simpl; [discriminate|].
  destruct (PyStr.contains key lower).
  - intros [= <-]. now left.
  - intros H. right. now apply IH.
Qed.

(** X13: [resolve_supplier] is idempotent: a supplier code it returns,
    and a name it passes through trimmed, are both mapped to
    themselves; so names that went through it once (the section names of
    the depletion sheet, the suppliers of the item master) can go
    through it again unchanged. *)
Theorem resolve_supplier_idempotent (raw_name : string) :
  resolve_supplier (resolve_supplier raw_name) = resolve_supplier raw_name.
Proof.
  unfold resolve_supplier at 2 3.
  destruct (first_alias SUPPLIER_MAP (PyStr.strip (PyStr.lower raw_name)))
    as [code|] eqn:E.
  - apply first_alias_code in E.
    assert (Hall : Forall (fun c => resolve_supplier c = c)
                     (map snd SUPPLIER_MAP)).
    { repeat constructor. }
    rewrite Forall_forall in Hall. exact (Hall code E).
  - unfold resolve_supplier.
    rewrite lower_strip, strip_idem, E. apply strip_idem.
Qed.

(** ** Dates and month keys *)

Lemma string_app_cons c (s t : string) : String c s ++ t = String c (s ++ t).
Proof. reflexivity. Qed.

Lemma string_app_assoc (s t u : string) : (s ++ t) ++ u = s ++ (t ++ u).
Proof.
  induction s as [|c s IH]; [reflexivity|].
  rewrite !string_app_cons. now rewrite IH.
Qed.

Lemma digits_val_app (s t : string) :
  forall a,
    Dates.digits_val a (s ++ t)
    = match Dates.digits_val a s with
      | Some v => Dates.digits_val v t
      | None => None
      end.
Proof.
  induction s as [|c s IH]; intros a; [reflexivity|].
  rewrite string_app_cons. cbn [Dates.digits_val].
  destruct (Dates.digit_val c); [apply IH|reflexivity].
Qed.

Lemma digit_val_char (d : Z) :
  (0 <= d <= 9)%Z -> Dates.digit_val (Dates.digit_char d) = Some d.
Proof.
  intros H.
  assert (E : (d = 0 \/ d = 1 \/ d = 2 \/ d = 3 \/ d = 4 \/ d = 5
               \/ d = 6 \/ d = 7 \/ d = 8 \/ d = 9)%Z) by lia.
  repeat (destruct E as [->|E]; [reflexivity|]). subst. reflexivity.
Qed.

Lemma decimal_aux_S (fuel : nat) (n : Z) (acc : string) :
  Dates.decimal_aux (S fuel) n acc
  = if (n <? 10)%Z then String (Dates.digit_char (n mod 10)) acc
    else Dates.decimal_aux fuel (n / 10)
           (String (Dates.digit_char (n mod 10)) acc).
Proof. reflexivity. Qed.

Lemma decimal_aux_app (fuel : nat) :
  forall n acc,
    Dates.decimal_aux fuel n acc = Dates.decimal_aux fuel n "" ++ acc.
Proof.
  induction fuel as [|fuel IH]; intros n acc; [reflexivity|].
  rewrite !decimal_aux_S. destruct (n <? 10)%Z; [reflexivity|].
  rewrite (IH _ (String _ acc)), (IH _ (String _ "")).
  now rewrite string_app_assoc.
Qed.

Lemma decimal_aux_value (fuel : nat) :
  forall n a,
    (0 <= n < 2 ^ Z.of_nat (S fuel))%Z ->
    exists k, Dates.digits_val a (Dates.decimal_aux (S fuel) n "")
              = Some (a * 10 ^ k + n)%Z
              /\ (0 < k)%Z.
Proof.
  induction fuel as [|fuel IH]; intros n a Hn;
    rewrite decimal_aux_S; destruct (n <? 10)%Z eqn:E.
  - apply Z.ltb_lt in E. exists 1%Z. cbn [Dates.digits_val].
    rewrite Z.mod_small by lia. rewrite digit_val_char by lia.
    split; [f_equal; lia|lia].
  - apply Z.ltb_ge in E. change (2 ^ Z.of_nat 1)%Z with 2%Z in Hn. lia.
  - apply Z.ltb_lt in E. exists 1%Z. cbn [Dates.digits_val].
    rewrite Z.mod_small by lia. rewrite digit_val_char by lia.
    split; [f_equal; lia|lia].
  - apply Z.ltb_ge in E.
    rewrite decimal_aux_app, digits_val_app.
    assert (Hdiv : (0 <= n / 10 < 2 ^ Z.of_nat (S fuel))%Z).
    { rewrite (Nat2Z.inj_succ (S fuel)), Z.pow_succ_r in Hn by lia.
      split; [apply Z.div_pos; lia|].
      apply Z.div_lt_upper_bound; lia. }
    destruct (IH (n / 10)%Z a Hdiv) as (k & -> & Hk).
    exists (k + 1)%Z. cbn [Dates.digits_val].
    rewrite digit_val_char
      by (pose proof (Z.mod_pos_bound n 10 ltac:(lia)); lia).
    split; [|lia]. f_equal. rewrite Z.pow_add_r by lia.
    pose proof (Z.div_mod n 10 ltac:(lia)). lia.
Qed.

Lemma number_decimal (n : Z) :
  (0 <= n)%Z -> Dates.number (Dates.decimal n) = Some n.
Proof.
  intros Hn. unfold Dates.decimal, Dates.number.
  destruct (decimal_aux_value (Z.to_nat (Z.log2 n)) n 0%Z) as (k & Hk & _).
  - split; [exact Hn|].
    rewrite Nat2Z.inj_succ, Z2Nat.id by apply Z.log2_nonneg.
    destruct (Z.eq_dec n 0%Z) as [->|Hz]; [reflexivity|].
    apply Z.log2_spec. lia.
  - destruct (Dates.decimal_aux (S (Z.to_nat (Z.log2 n))) n "") eqn:E.
    + rewrite decimal_aux_S in E. destruct (n <? 10)%Z; [discriminate|].
      rewrite decimal_aux_app in E.
      destruct (Dates.decimal_aux _ _ ""); discriminate.
    + rewrite Hk. f_equal; lia.
Qed.

Lemma digit_not_dash (c : ascii) (d : Z) :
  Dates.digit_val c = Some d -> Ascii.eqb c "-" = false.
Proof.
  intros H. destruct (Ascii.eqb_spec c "-") as [->|Hne]; [|reflexivity].
  vm_compute in H. discriminate.
Qed.

Lemma split_at_dash (s t : string) :
  forall a v,
    Dates.digits_val a s = Some v ->
    before_dash (s ++ String "-" t) = s
    /\ after_dash (s ++ String "-" t) = t.
Proof.
  induction s as [|c s IH]; intros a v H.
  - split; reflexivity.
  - rewrite string_app_cons. cbn [Dates.digits_val] in H.
    destruct (Dates.digit_val c) as [d|] eqn:Ed; [|discriminate].
    cbn [before_dash after_dash]. rewrite (digit_not_dash c d Ed).
    destruct (IH _ _ H) as [H1 H2]. split; [now rewrite H1|exact H2].
Qed.

Lemma number_padded (m : Z) :
  (0 <= m)%Z ->
  Dates.number ((if (m <? 10)%Z then "0" else "") ++ Dates.decimal m)
  = Some m.
Proof.
  intros Hm. destruct (m <? 10)%Z.
  - pose proof (number_decimal m Hm) as H. unfold Dates.number in H |- *.
    rewrite string_app_cons.
    change ("" ++ Dates.decimal m) with (Dates.decimal m).
    destruct (Dates.decimal m) eqn:E; [discriminate|].
    cbn [Dates.digits_val] in H |- *. exact H.
  - exact (number_decimal m Hm).
Qed.

Lemma read_month_key_round_trip (y m : Z) :
  (0 <= y)%Z -> (0 <= m)%Z ->
  read_month_key (Dates.month_key y m) = Some (y, m).
Proof.
  intros Hy Hm. unfold read_month_key, Dates.month_key.
  pose proof (number_decimal y Hy) as Hny.
  assert (Hd : exists v, Dates.digits_val 0%Z (Dates.decimal y) = Some v).
  { unfold Dates.number in Hny. destruct (Dates.decimal y); [discriminate|].
    eauto. }
  destruct Hd as [v Hv].
  change ("-" ++ ?t) with (String "-" t).
  destruct (split_at_dash (Dates.decimal y)
              ((if (m <? 10)%Z then "0" else "") ++ Dates.decimal m) 0%Z v Hv)
    as [-> ->].
  now rewrite Hny, number_padded.
Qed.

(** X14: the key [f"{dt.year}-{dt.month:02d}"] determines the year and
    the month: the digits before the dash read back as the year and the
    digits after it as the month, so two different calendar months never
    share a bucket of a histogram. *)
Theorem month_key_injective (y m y' m' : Z) :
  (0 <= y)%Z -> (0 <= m)%Z -> (0 <= y')%Z -> (0 <= m')%Z ->
  Dates.month_key y m = Dates.month_key y' m' ->
  y = y' /\ m = m'.
Proof.
  intros Hy Hm Hy' Hm' Heq.
  pose proof (read_month_key_round_trip y m Hy Hm) as H1.
  pose proof (read_month_key_round_trip y' m' Hy' Hm') as H2.
  rewrite Heq, H2 in H1. injection H1 as -> ->. split; reflexivity.
Qed.

Lemma month_key_injective_witness :
  Dates.month_key 2024 3 = "2024-03" /\ (2024 = 2024 /\ 3 = 3)%Z.
Proof.
  split; [reflexivity|].
  apply (month_key_injective 2024 3 2024 3); try lia. reflexivity.
Defined.

(** ** ABC: classes follow the annual values *)





(** ** Activity aggregator: the histogram of several files *)













(** ** Item master reader: a repeated SKU code *)









(** ** The annual value, from the input sheets *)








(** ** XYZ: a constant demand *)

Lemma Qsum_constant (q : Q) (l : list Q) :
  Forall (fun x => x == q) l ->
  Qsum l == inject_Z (Z.of_nat (length l)) * q.
Proof.
  induction 1 as [|x l Hx Hl IH].
  - unfold Qsum. cbn [length foldl]. change (inject_Z (Z.of_nat 0)) with 0.
    ring.
  - rewrite Qsum_cons, IH, Hx. cbn [length].
    rewrite Nat2Z.inj_succ. unfold Z.succ. rewrite inject_Z_plus.
    change (inject_Z 1) with 1. ring.
Qed.

Lemma Qsum_zero (l : list Q) : Forall (fun x => x == 0) l -> Qsum l == 0.
Proof.
  intros H. rewrite (Qsum_constant 0 l H). ring.
Qed.

Lemma length_pos_inject (n : nat) : (0 < n)%nat -> 0 < inject_Z (Z.of_nat n).
Proof. intros H. unfold Qlt. simpl. lia. Qed.

Lemma mean_constant (q : Q) (l : list Q) :
  l <> [] -> Forall (fun x => x == q) l -> mean l == q.
Proof.
  intros Hne Hall. unfold mean. rewrite (Qsum_constant q l Hall).
  assert (Hn : 0 < inject_Z (Z.of_nat (length l))).
  { apply length_pos_inject. destruct l; [contradiction|simpl; lia]. }
  field. lra.
Qed.

Lemma variance_constant (q : Q) (l : list Q) :
  (1 < length l)%nat -> Forall (fun x => x == q) l -> variance l == 0.
Proof.
  intros Hlen Hall. unfold variance. cbv zeta.
  assert (Hne : l <> []) by (destruct l; [simpl in Hlen; lia|discriminate]).
  pose proof (mean_constant q l Hne Hall) as Hm.
  assert (Hz : Qsum (map (fun x => (x - mean l) * (x - mean l)) l) == 0).
  { apply Qsum_zero. apply Forall_map. simpl.
    eapply Forall_impl; [exact Hall|]. intros x Hx. cbv beta.
    rewrite Hx, Hm. ring. }
  rewrite Hz.
  assert (Hn : 1 < inject_Z (Z.of_nat (length l))).
  { change 1 with (inject_Z 1). rewrite <- Zlt_Qlt. lia. }
  field. lra.
Qed.

Section XYZ_constant.
Variable sqrtQ : Q -> Q.
Hypothesis sqrtQ_zero : forall x, x == 0 -> sqrtQ x == 0.

(** X21: a SKU whose resolved histogram has at least six months, all
    with the same positive quantity, is measured, not estimated: its
    coefficient of variation is 0 (the square root of a zero variance
    being 0) and its class is X, whatever its weekly velocity. *)
Theorem xyz_constant_demand (md : gmap string (gmap string Q))
    (k : string) (s : SKUData) (q : Q) :
  0 < q ->
  (MIN_MONTHS_FOR_XYZ <= size (resolve_monthly md k))%nat ->
  (forall m v, resolve_monthly md k !! m = Some v -> v == q) ->
  xyz_class (xyz_one sqrtQ md k s) = Some ClsX
  /\ xyz_estimated (xyz_one sqrtQ md k s) = xyz_estimated s
  /\ monthly_qty_out (xyz_one sqrtQ md k s) = resolve_monthly md k
  /\ exists c, cv (xyz_one sqrtQ md k s) = Some (Fin c) /\ c == 0.
Proof.
  intros Hq Hsize Hall. unfold xyz_one.
  set (monthly := resolve_monthly md k) in *.
  apply Nat.leb_le in Hsize. rewrite Hsize.
  apply Nat.leb_le in Hsize. unfold MIN_MONTHS_FOR_XYZ in Hsize.
  set (values := (map_to_list monthly).*2).
  assert (Hlen : length values = size monthly)
    by apply monthly_values_length.
  assert (Hvals : Forall (fun x => x == q) values).
  { apply Forall_forall. intros x Hx.
    apply list_elem_of_fmap in Hx as ([m v] & -> & Hin).
    apply elem_of_map_to_list in Hin. simpl. exact (Hall m v Hin). }
  assert (Hne : values <> []).
  { intros E. rewrite E in Hlen. simpl in Hlen. lia. }
  pose proof (mean_constant q values Hne Hvals) as Hmean.
  assert (Hvar : variance values == 0)
    by (apply (variance_constant q); [lia|exact Hvals]).
  assert (Hcv : exists c, measured_cv sqrtQ monthly = Fin c /\ c == 0).
  { unfold measured_cv. fold values. cbv zeta.
    assert (Hpos : Qltb 0 (mean values) = true)
      by (apply Qltb_lt; rewrite Hmean; exact Hq).
    rewrite Hpos.
    assert (H1 : (1 <? length values)%nat = true)
      by (apply Nat.ltb_lt; lia).
    rewrite H1. eexists. split; [reflexivity|].
    unfold stdev. rewrite (sqrtQ_zero _ Hvar).
    unfold Qdiv. ring. }
  destruct Hcv as (c & Ec & Hc).
  cbn [cv set_monthly_qty_out set_cv]. rewrite Ec.
  cbn. repeat split.
  - unfold xyz_of_cv, ext_ltb.
    assert (Hx : Qltb c XYZ_X_THRESHOLD = true).
    { apply Qltb_lt. rewrite Hc. unfold XYZ_X_THRESHOLD. reflexivity. }
    now rewrite Hx.
  - exists c. split; [reflexivity|exact Hc].
Qed.

End XYZ_constant.

Lemma sqrt_approx_zero (x : Q) : x == 0 -> sqrt_approx x == 0.
Proof.
  intros H. unfold sqrt_approx.
  assert (Hn : Qnum x = 0%Z).
  { unfold Qeq in H. simpl in H. lia. }
  rewrite Hn. reflexivity.
Qed.

Lemma xyz_constant_demand_witness :
  (MIN_MONTHS_FOR_XYZ <= size (resolve_monthly constant_demand "S1"))%nat
  /\ xyz_class (xyz_one sqrt_approx constant_demand "S1" (new_sku "S1"))
     = Some ClsX
  /\ xyz_estimated (xyz_one sqrt_approx constant_demand "S1" (new_sku "S1"))
     = false.
Proof.
  assert (Hsize : (MIN_MONTHS_FOR_XYZ
                   <= size (resolve_monthly constant_demand "S1"))%nat)
    by (vm_compute; lia).
  assert (Hall : forall m v,
             resolve_monthly constant_demand "S1" !! m = Some v -> v == 40).
  { intros m v H. apply elem_of_map_to_list in H.
    assert (Hl : Forall (fun mv : string * Q => mv.2 == 40)
                   (map_to_list (resolve_monthly constant_demand "S1")))
      by (vm_compute; repeat constructor).
    rewrite Forall_forall in Hl. exact (Hl (m, v) H). }
  split; [exact Hsize|].
  destruct (xyz_constant_demand sqrt_approx sqrt_approx_zero constant_demand
              "S1" (new_sku "S1") 40 eq_refl Hsize Hall)
    as (H1 & H2 & _).
  split; [exact H1|exact H2].
Defined.
